(** * sawt: the response/citation assembler of [getanswer/inquirer.py]

    A shallow embedding of [inquirer.py]: the metadata parsers
    [convert_date_format] and [timestamp_to_seconds], the assembler
    [process_responses_llm] with its closure [gen_responses], the document
    combiner [process_and_concat_documents], the retrieval fan-out of
    [get_indepth_response_from_query] and the router [route_question].

    Conventions.
    - A Python [str] is a [string]: the embedding covers the strings whose
      code points are below 256.  In that range the decimal digits are
      exactly ['0'..'9'], which is what [\d] and [int] accept.
    - Python integers are [Z].  The limit that CPython 3.11 puts on the
      number of digits converted between [str] and [int] (4300 by default,
      configurable) is not modelled.
    - A raised exception is a value: a function that can raise returns a
      [result], and [try ... except ValueError] is [try_except_ValueError].
    - A metadata value is a [pyval]: [None], a [str] or an [int].
    - [process_responses_llm] returns the dictionary it hands to
      [json.dumps], as a record [card]; the serialisation itself is not
      modelled.
    - What is external to [inquirer.py] is a parameter: the card tag
      [RESPONSE_TYPE_DEPTH], the vector stores and their search, the helper
      [sort_retrieved_documents], and the prompt-and-model chain. *)

From stdpp Require Import gmap strings list fin_maps pretty.
From Stdlib Require Import ZArith Ascii.

Local Open Scope Z_scope.

(** ** Exceptions *)

Inductive exn : Set := ValueError | TypeError | IndexError.

Inductive result (A : Type) : Type :=
  | Ok (a : A)
  | Raise (e : exn).
Arguments Ok {A} a.
Arguments Raise {A} e.

#[global] Instance result_ret : MRet result := fun _ a => Ok a.
#[global] Instance result_bind : MBind result := fun _ _ f r =>
  match r with
  | Ok a => f a
  | Raise e => Raise e
  end.
#[global] Instance result_fmap : FMap result := fun _ _ f r =>
  match r with
  | Ok a => Ok (f a)
  | Raise e => Raise e
  end.

#[global] Instance exn_eq_dec : EqDecision exn.
Proof. solve_decision. Defined.

(** [try: x = body / except ValueError: handler], followed by [rest x]:
    the handler either returns from the function or supplies the rest of
    the computation itself; any other exception escapes. *)
Definition try_except_ValueError {A B}
    (body : result A) (handler : result B) (rest : A → result B) : result B :=
  match body with
  | Ok a => rest a
  | Raise ValueError => handler
  | Raise e => Raise e
  end.

(** [l[i]] on a list: [IndexError] when [i] is out of range. *)
Definition py_index {A} (l : list A) (i : nat) : result A :=
  match l !! i with
  | Some x => Ok x
  | None => Raise IndexError
  end.

(** ** Python values found in document metadata *)

Inductive pyval : Set :=
  | VNone
  | VStr (s : string)
  | VInt (n : Z).

#[global] Instance pyval_eq_dec : EqDecision pyval.
Proof. solve_decision. Defined.

(** Truth value of [if v:]. *)
Definition truthy (v : pyval) : bool :=
  match v with
  | VNone => false
  | VStr s => negb (String.eqb s "")
  | VInt n => negb (n =? 0)
  end.

Definition is_not_None (v : pyval) : bool :=
  match v with
  | VNone => false
  | _ => true
  end.

(** ** String primitives *)

Definition LF : ascii := "010"%char.
(** The paragraph separator, written ["\n\n"] in the source. *)
Definition double_line_break : string := String LF (String LF "").

(** [sub in s]. *)
Fixpoint contains (sub s : string) : bool :=
  String.prefix sub s ||
  match s with
  | EmptyString => false
  | String _ s' => contains sub s'
  end.

(** [s.split(sep)] for a non-empty [sep]: the pieces between the
    non-overlapping occurrences of [sep], scanned from the left.  [skip]
    counts the characters of a separator still to be passed over and [cur]
    is the piece being collected. *)
Fixpoint split_go (sep : string) (skip : nat) (cur s : string) : list string :=
  match s with
  | EmptyString => [cur]
  | String c s' =>
      match skip with
      | S k => split_go sep k cur s'
      | O =>
          if String.prefix sep s
          then cur :: split_go sep (String.length sep - 1) "" s'
          else split_go sep 0 (cur +:+ String c "") s'
      end
  end.

Definition split (sep s : string) : list string := split_go sep 0 "" s.

(** [sep.join(l)]. *)
Fixpoint join (sep : string) (l : list string) : string :=
  match l with
  | [] => ""
  | [x] => x
  | x :: l' => x +:+ sep +:+ join sep l'
  end.

(** [os.path.basename] (posixpath): what follows the last ['/']. *)
Fixpoint basename (p : string) : string :=
  match p with
  | EmptyString => ""
  | String c p' =>
      if contains "/" p' then basename p'
      else if Ascii.eqb c "/" then p' else p
  end.

(** ** [int(str)] in base 10 *)

Definition code (c : ascii) : Z := Z.of_nat (nat_of_ascii c).

(** The white space [int] strips, for code points below 256: tab to
    carriage return, space, and the two spaces beyond ASCII (NEL and the
    no-break space). *)
Definition is_space (c : ascii) : bool :=
  let n := code c in
  ((9 <=? n) && (n <=? 13)) || (n =? 32) || (n =? 133) || (n =? 160).

Definition digit_value (c : ascii) : option Z :=
  let n := code c in
  if (48 <=? n) && (n <=? 57) then Some (n - 48) else None.

Fixpoint drop_spaces (s : string) : string :=
  match s with
  | EmptyString => ""
  | String c s' => if is_space c then drop_spaces s' else s
  end.

Definition all_spaces (s : string) : bool :=
  String.eqb (drop_spaces s) "".

(** The digits of a literal: single underscores are allowed between digits,
    whitespace only at the very end.  [prev_us] tells that the previous
    character was an underscore. *)
Fixpoint int_digits (acc : Z) (prev_us : bool) (s : string) : option Z :=
  match s with
  | EmptyString => if prev_us then None else Some acc
  | String c s' =>
      match digit_value c with
      | Some d => int_digits (10 * acc + d) false s'
      | None =>
          if prev_us then None
          else if Ascii.eqb c "_" then int_digits acc true s'
          else if all_spaces s then Some acc else None
      end
  end.

(** [int(s)]: optional surrounding white space, an optional sign, then at
    least one digit.  Anything else is a [ValueError]. *)
Definition py_int (s : string) : result Z :=
  let s1 := drop_spaces s in
  let '(sign, s2) :=
    match s1 with
    | String "+" r => (1, r)
    | String "-" r => (-1, r)
    | _ => (1, s1)
    end in
  match s2 with
  | EmptyString => Raise ValueError
  | String c _ =>
      match digit_value c, int_digits 0 false s2 with
      | Some _, Some n => Ok (sign * n)
      | _, _ => Raise ValueError
      end
  end.

(** ** [timestamp_to_seconds] *)

Definition timestamp_to_seconds (timestamp : pyval) : result (option Z) :=
  match timestamp with
  | VStr timestamp =>
      if contains "timestamp not available" timestamp then Ok None
      else
        start_time ← py_index (split "-" timestamp) 0;
        time_parts ← mapM py_int (split ":" start_time);
        match time_parts with
        | [h; m; s] => Ok (Some (h * 3600 + m * 60 + s))
        | [h; m] => Ok (Some (h * 3600 + m * 60 + 0))
        | _ => Raise ValueError
        end
  | _ => Raise TypeError (* [in] on a value that is not iterable *)
  end.

(** ** [datetime.strptime] and [strftime]

    [_strptime] turns the format into a regular expression, one
    named group per directive, matches it at the start of the data and
    converts the groups with [int].  Only the directives that the formats
    of [convert_date_format] can reach are tabulated: [%m], [%d] and [%Y].
    A character after [%] without an entry in the table, such as ['-'],
    is a bad directive.  A character of the format outside a directive
    stands for itself; the formats at hand have only ['-'] there. *)

Definition in_range (lo hi c : ascii) : bool :=
  (code lo <=? code c) && (code c <=? code hi).

Definition is_digit : ascii → bool := in_range "0" "9".

(** [1[0-2]|0[1-9]|[1-9]] *)
Definition month_alts : list (list (ascii → bool)) :=
  [ [Ascii.eqb "1"; in_range "0" "2"];
    [Ascii.eqb "0"; in_range "1" "9"];
    [in_range "1" "9"] ].

(** [3[0-1]|[1-2]\d|0[1-9]|[1-9]| [1-9]] *)
Definition day_alts : list (list (ascii → bool)) :=
  [ [Ascii.eqb "3"; in_range "0" "1"];
    [in_range "1" "2"; is_digit];
    [Ascii.eqb "0"; in_range "1" "9"];
    [in_range "1" "9"];
    [Ascii.eqb " "; in_range "1" "9"] ].

(** [\d\d\d\d] *)
Definition year_alts : list (list (ascii → bool)) :=
  [ [is_digit; is_digit; is_digit; is_digit] ].

Inductive item : Type :=
  | Lit (c : ascii)
  | Group (name : ascii) (alts : list (list (ascii → bool))).

Definition directive (c : ascii) : option item :=
  if Ascii.eqb c "m" then Some (Group "m" month_alts)
  else if Ascii.eqb c "d" then Some (Group "d" day_alts)
  else if Ascii.eqb c "Y" then Some (Group "Y" year_alts)
  else None.

Fixpoint compile_format (format : string) : result (list item) :=
  match format with
  | EmptyString => Ok []
  | String "%" EmptyString => Raise ValueError (* stray % *)
  | String "%" (String d rest) =>
      match directive d with
      | Some it => cons it <$> compile_format rest
      | None => Raise ValueError (* bad directive *)
      end
  | String c rest => cons (Lit c) <$> compile_format rest
  end.

(** One alternative: a sequence of character classes. *)
Fixpoint match_seq (p : list (ascii → bool)) (s : string) : option (string * string) :=
  match p with
  | [] => Some ("", s)
  | cl :: p' =>
      match s with
      | String c s' =>
          if cl c
          then (λ mr : string * string, (String c mr.1, mr.2)) <$> match_seq p' s'
          else None
      | EmptyString => None
      end
  end.

(** All the ways the items match a prefix of [s], in the order a
    backtracking matcher tries them; each with its groups and the rest of
    [s].  [re.match] takes the first. *)
Fixpoint match_items (items : list item) (s : string)
    : list (list (ascii * string) * string) :=
  match items with
  | [] => [([], s)]
  | Lit c :: items' =>
      match s with
      | String c' s' => if Ascii.eqb c c' then match_items items' s' else []
      | EmptyString => []
      end
  | Group name alts :: items' =>
      gr ← omap (λ p, match_seq p s) alts;
      fr ← match_items items' gr.2;
      [((name, gr.1) :: fr.1, fr.2)]
  end.

Fixpoint found_group (name : ascii) (found : list (ascii * string)) : option string :=
  match found with
  | [] => None
  | (n, g) :: found' => if Ascii.eqb n name then Some g else found_group name found'
  end.

Record date : Set := { year : Z; month : Z; day : Z }.

Definition is_leap (y : Z) : bool :=
  (y mod 4 =? 0) && (negb (y mod 100 =? 0) || (y mod 400 =? 0)).

Definition days_in_month (y m : Z) : Z :=
  if m =? 2 then (if is_leap y then 29 else 28)
  else if (m =? 4) || (m =? 6) || (m =? 9) || (m =? 11) then 30
  else 31.

(** The checks of the [date] constructor. *)
Definition check_date_fields (y m d : Z) : result unit :=
  if (1 <=? y) && (y <=? 9999) && (1 <=? m) && (m <=? 12)
     && (1 <=? d) && (d <=? days_in_month y m)
  then Ok () else Raise ValueError.

Definition strptime (data_string format : string) : result date :=
  format_regex ← compile_format format;
  match head (match_items format_regex data_string) with
  | None => Raise ValueError (* data does not match format *)
  | Some (found, rest) =>
      if negb (String.eqb rest "") then Raise ValueError (* unconverted data *)
      else
        year ← from_option (λ g, Some <$> py_int g) (Ok None) (found_group "Y" found);
        month ← from_option py_int (Ok 1) (found_group "m" found);
        day ← from_option py_int (Ok 1) (found_group "d" found);
        let leap_year_fix :=
          match year with
          | None => (month =? 2) && (day =? 29)
          | Some _ => false
          end in
        let year' :=
          match year with
          | Some y => y
          | None => if leap_year_fix then 1904 else 1900
          end in
        _ ← check_date_fields year' month day;
        Ok {| year := if leap_year_fix then 1900 else year';
              month := month; day := day |}
  end.

Fixpoint zeros (n : nat) : string :=
  match n with
  | O => ""
  | S n' => String "0" (zeros n')
  end.

Definition zero_pad (width : nat) (s : string) : string :=
  zeros (width - String.length s) +:+ s.

(** [date_obj.strftime("%m/%d/%Y")].  The year is printed by the C
    library, which on Linux does not pad a year below 1000. *)
Definition strftime_mdY (d : date) : string :=
  zero_pad 2 (pretty (month d)) +:+ "/" +:+ zero_pad 2 (pretty (day d))
  +:+ "/" +:+ pretty (year d).

(** ** [convert_date_format] *)

Definition convert_date_format (date_str : pyval) : result string :=
  match date_str with
  | VStr date_str =>
      if contains "/" date_str then Ok date_str
      else
        try_except_ValueError (strptime date_str "%m-%d-%Y")
          (try_except_ValueError (strptime date_str "%-m-%-d-%Y")
             (Ok "Invalid date format")
             (λ date_obj, Ok (strftime_mdY date_obj)))
          (λ date_obj, Ok (strftime_mdY date_obj))
  | _ => Ok "Invalid input: not a string"
  end.

(** ** Documents, dictionaries and the response card *)

Record Document : Type := {
  page_content : string;
  metadata : gmap string pyval
}.

(** [d.get(key, dflt)]: the stored value, also when it is [None]. *)
Definition dict_get (d : gmap string pyval) (key : string) (dflt : pyval) : pyval :=
  default dflt (d !! key).

(** A dictionary built by the assembler keeps its insertion order: an
    association list.  [dict_set] is [d[key] = v]. *)
Fixpoint dict_set (d : list (string * pyval)) (key : string) (v : pyval)
    : list (string * pyval) :=
  match d with
  | [] => [(key, v)]
  | (k, w) :: d' =>
      if String.eqb k key then (k, v) :: d' else (k, w) :: dict_set d' key v
  end.

Fixpoint dict_lookup (d : list (string * pyval)) (key : string) : option pyval :=
  match d with
  | [] => None
  | (k, w) :: d' => if String.eqb k key then Some w else dict_lookup d' key
  end.

Definition dict_keys (d : list (string * pyval)) : list string := d.*1.

(** Truth value of a dictionary or list: non-empty. *)
Definition nonempty {A} (l : list A) : bool :=
  match l with
  | [] => false
  | _ :: _ => true
  end.

(** The dictionary handed to [json.dumps].  An element [r] of [responses]
    stands for [{"response": r}]. *)
Record card : Type := {
  card_type : string;
  responses : list pyval;
  citations : list (list (string * pyval))
}.

(** [sub in v] and [v += suffix] on a metadata value. *)
Definition py_contains (sub : string) (v : pyval) : result bool :=
  match v with
  | VStr s => Ok (contains sub s)
  | _ => Raise TypeError
  end.

Definition py_add_str (v : pyval) (suffix : string) : result pyval :=
  match v with
  | VStr s => Ok (VStr (s +:+ suffix))
  | _ => Raise TypeError
  end.

Definition py_basename (v : pyval) : result pyval :=
  match v with
  | VStr p => Ok (VStr (basename p))
  | _ => Raise TypeError
  end.

(** [l[i] if i < len(l) else None] *)
Definition item_or_None (l : list pyval) (i : nat) : result pyval :=
  if (i <? length l)%nat then py_index l i else Ok VNone.

(** [for i in idx: st = body st i] *)
Fixpoint for_each {S} (body : S → nat → result S) (idx : list nat) (st : S) : result S :=
  match idx with
  | [] => Ok st
  | i :: idx' => st' ← body st i; for_each body idx' st'
  end.

(** ** [process_responses_llm] *)

Section gen_responses_closure.
(** The variables the closure captures. *)
Variables generated_responses generated_titles page_numbers : list pyval.
Variables generated_sources publish_dates timestamps urls : list pyval.

Definition gen_responses (i : nat) : result (pyval * list (string * pyval)) :=
  response ← item_or_None generated_responses i;
  source_title ← item_or_None generated_titles i;
  source_name ←
    (if (i <? length generated_sources)%nat
     then source ← py_index generated_sources i; py_basename source
     else Ok VNone);
  source_page_number ← item_or_None page_numbers i;
  source_publish_date ← item_or_None publish_dates i;
  source_timestamp ← item_or_None timestamps i;
  source_url ← item_or_None urls i;
  source_url ←
    (if truthy source_url && truthy source_timestamp then
       time_in_seconds ← timestamp_to_seconds source_timestamp;
       match time_in_seconds with
       | Some t =>
           has_query ← py_contains "?" source_url;
           if has_query : bool
           then py_add_str source_url ("&t=" +:+ pretty t +:+ "s")
           else py_add_str source_url ("?t=" +:+ pretty t +:+ "s")
       | None => Ok source_url
       end
     else Ok source_url);
  let citation := [] in
  let citation :=
    if is_not_None source_title
    then dict_set citation "Title" source_title else citation in
  let citation :=
    if is_not_None source_publish_date
    then dict_set citation "Published" source_publish_date else citation in
  let citation :=
    if is_not_None source_url
    then dict_set citation "URL" source_url else citation in
  let citation :=
    if is_not_None source_timestamp
    then dict_set citation "Video timestamp" source_timestamp else citation in
  let citation :=
    if is_not_None source_name
    then dict_set citation "Name" source_name else citation in
  let citation :=
    if is_not_None source_page_number
    then dict_set citation "Page Number" source_page_number else citation in
  Ok (response, citation).

(** The body of the loop over [range(num_responses)]. *)
Definition collect (st : list pyval * list (list (string * pyval))) (i : nat)
    : result (list pyval * list (list (string * pyval))) :=
  rc ← gen_responses i;
  let responses := if truthy rc.1 then st.1 ++ [rc.1] else st.1 in
  let citations := if nonempty rc.2 then st.2 ++ [rc.2] else st.2 in
  Ok (responses, citations).
End gen_responses_closure.

(** The per-document lists of [process_responses_llm]. *)
Definition titles_of (docs : list Document) : list pyval :=
  (λ doc, dict_get (metadata doc) "title"
            (dict_get (metadata doc) "source" (VStr ""))) <$> docs.
Definition page_numbers_of (docs : list Document) : list pyval :=
  (λ doc, dict_get (metadata doc) "page_number" VNone) <$> docs.
Definition sources_of (docs : list Document) : list pyval :=
  (λ doc, dict_get (metadata doc) "source" (VStr "source not available")) <$> docs.
Definition publish_dates_of (docs : list Document) : result (list pyval) :=
  mapM (λ doc, VStr <$> convert_date_format
                 (dict_get (metadata doc) "publish_date" (VStr "date not available")))
       docs.
Definition timestamps_of (docs : list Document) : list pyval :=
  (λ doc, dict_get (metadata doc) "timestamp" (VStr "timestamp not available")) <$> docs.
Definition urls_of (docs : list Document) : list pyval :=
  (λ doc, dict_get (metadata doc) "url" (VStr "url not available")) <$> docs.

Section assembler.
(** The card tag is defined in another module, [api]: a parameter. *)
Variable RESPONSE_TYPE_DEPTH : string.

Definition process_responses_llm (responses_llm : string)
    (docs : option (list Document)) : result card :=
  let generated_responses := VStr <$> split double_line_break responses_llm in
  rc ←
    match docs with
    | Some (doc :: docs') =>
        let docs := doc :: docs' in
        let generated_titles := titles_of docs in
        let page_numbers := page_numbers_of docs in
        let generated_sources := sources_of docs in
        publish_dates ← publish_dates_of docs;
        let timestamps := timestamps_of docs in
        let urls := urls_of docs in
        let num_responses := length generated_responses in
        for_each
          (collect generated_responses generated_titles page_numbers
                   generated_sources publish_dates timestamps urls)
          (seq 0 num_responses) ([], [])
    | _ =>
        if nonempty generated_responses
        then r ← py_index generated_responses 0; Ok ([r], [])
        else Ok ([], [])
    end;
  Ok {| card_type := RESPONSE_TYPE_DEPTH;
        responses := rc.1;
        citations := rc.2 |}.
End assembler.

(** ** Retrieval fan-out, combiner and router *)

Section indepth.
Variable RESPONSE_TYPE_DEPTH : string.
(** The vector stores and their relevance scores are external. *)
Variables Store Score : Type.
(** [db.similarity_search_with_score(q, k=n)] *)
Variable similarity_search_with_score :
  Store → string → Z → list (Document * Score).
(** [sort_retrieved_documents] is defined in another module, [helper]. *)
Variable sort_retrieved_documents :
  list (Document * Score) → list (Document * Score).
(** [prompt_response | llm | StrOutputParser()], applied to the question
    and the combined documents. *)
Variable response_chain : string → string → string.

(** One similarity search as observed at a store. *)
Record search_call : Type := {
  call_store : Store;
  call_query : string;
  call_k : Z
}.

Definition process_and_concat_documents
    (retrieved_docs : list (string * list (Document * Score)))
    : string * list Document :=
  let acc :=
    foldl (λ (acc : list string * list Document)
             (sd : string * list (Document * Score)),
             foldl (λ (acc : list string * list Document) (ds : Document * Score),
                      (acc.1 ++ [page_content ds.1], acc.2 ++ [ds.1]))
                   acc (sort_retrieved_documents sd.2))
          ([], []) retrieved_docs in
  (join double_line_break acc.1, acc.2).

Definition retriever_names : list string := ["fc"; "cj"; "pdf"; "pc"; "news"].

(** One chain per store.  Running a chain on a query performs one
    search: the call as the store sees it, and what the store returns.
    The argument [k] is not mentioned by the chains: each search is
    written with [k=5]. *)
Definition retrieval_chains (db_fc db_cj db_pdf db_pc db_news : Store) (k : Z)
    : list (string * (string → search_call * list (Document * Score))) :=
  let retrievers := [db_fc; db_cj; db_pdf; db_pc; db_news] in
  (λ nd : string * Store,
     (nd.1, λ q, ({| call_store := nd.2; call_query := q; call_k := 5 |},
                  similarity_search_with_score nd.2 q 5)))
  <$> zip retriever_names retrievers.

(** [RunnableParallel(chains).invoke(query)]: every chain runs once on
    the query; the searches made, and the results under the chains'
    names.  The order of the trace is the order of the dictionary; the
    runs themselves are not ordered. *)
Definition invoke_parallel
    (chains : list (string * (string → search_call * list (Document * Score))))
    (query : string)
    : list search_call * list (string * list (Document * Score)) :=
  let runs := (λ nc : string * (string → search_call * list (Document * Score)),
                 (nc.1, nc.2 query)) <$> chains in
  ((λ r : string * (search_call * list (Document * Score)), r.2.1) <$> runs,
   (λ r : string * (search_call * list (Document * Score)), (r.1, r.2.2)) <$> runs).

(** The searches made, and the card or the exception. *)
Definition get_indepth_response_from_query
    (db_fc db_cj db_pdf db_pc db_news : Store) (query : string) (k : Z)
    : list search_call * result card :=
  let retrieval_chains := retrieval_chains db_fc db_cj db_pdf db_pc db_news k in
  let retrieved := invoke_parallel retrieval_chains query in
  let cd := process_and_concat_documents retrieved.2 in
  let responses_llm := response_chain query cd.1 in
  (retrieved.1, process_responses_llm RESPONSE_TYPE_DEPTH responses_llm (Some cd.2)).

Definition route_question
    (db_fc db_cj db_pdf db_pc db_news : Store) (query query_type : string) (k : Z)
    : list search_call * result card :=
  if String.eqb query_type RESPONSE_TYPE_DEPTH
  then get_indepth_response_from_query db_fc db_cj db_pdf db_pc db_news query k
  else ([], Raise ValueError).

(** [route_question] is called without [k]: its default, 20. *)
Definition answer_query (query response_type : string)
    (db_fc db_cj db_pdf db_pc db_news : Store) : list search_call * result card :=
  route_question db_fc db_cj db_pdf db_pc db_news query response_type 20.
End indepth.

Arguments Build_search_call {Store}.
Arguments call_store {Store}.
Arguments call_query {Store}.
Arguments call_k {Store}.

(** ** Sample inputs *)

Definition doc_of (md : list (string * pyval)) : Document :=
  {| page_content := ""; metadata := list_to_map md |}.

Definition two_paragraphs : string := "a" +:+ double_line_break +:+ "b".

(** One paragraph followed by an empty one. *)
Definition trailing_break : string := "a" +:+ double_line_break.

(** The citation of a document without metadata. *)
Definition default_citation (title : pyval) : list (string * pyval) :=
  [("Title", title); ("Published", VStr "Invalid date format");
   ("URL", VStr "url not available");
   ("Video timestamp", VStr "timestamp not available");
   ("Name", VStr "source not available")].

(** ** Derived notions used in the statements *)

(** The text [convert_date_format] returns (it always returns one). *)
Definition date_text (v : pyval) : string :=
  match convert_date_format v with
  | Ok s => s
  | Raise _ => ""
  end.

Definition publish_date_texts (docs : list Document) : list pyval :=
  (λ doc, VStr (date_text
                  (dict_get (metadata doc) "publish_date" (VStr "date not available"))))
  <$> docs.

(** The URL of a section once the offset of its timestamp is appended. *)
Definition url_with_offset (url ts : pyval) : result pyval :=
  if truthy url && truthy ts then
    time_in_seconds ← timestamp_to_seconds ts;
    match time_in_seconds with
    | Some t =>
        has_query ← py_contains "?" url;
        if has_query : bool
        then py_add_str url ("&t=" +:+ pretty t +:+ "s")
        else py_add_str url ("?t=" +:+ pretty t +:+ "s")
    | None => Ok url
    end
  else Ok url.

(** A citation lists the fields that are not [None], in a fixed order. *)
Definition field (key : string) (v : pyval) : list (string * pyval) :=
  if is_not_None v then [(key, v)] else [].

Definition citation_of (title date url ts name page : pyval) : list (string * pyval) :=
  field "Title" title ++ field "Published" date ++ field "URL" url
  ++ field "Video timestamp" ts ++ field "Name" name ++ field "Page Number" page.

(** Metadata on which [gen_responses] does not raise: the source is a
    string and, where the URL and the timestamp are both true values, the
    timestamp is the sentinel, or it parses and the URL is a string. *)
Definition well_formed_metadata (doc : Document) : bool :=
  let md := metadata doc in
  match dict_get md "source" (VStr "source not available") with
  | VStr _ =>
      let url := dict_get md "url" (VStr "url not available") in
      let ts := dict_get md "timestamp" (VStr "timestamp not available") in
      if truthy url && truthy ts then
        match timestamp_to_seconds ts, url with
        | Ok None, _ => true
        | Ok (Some _), VStr _ => true
        | _, _ => false
        end
      else true
  | _ => false
  end.

Definition nonempty_text (p : string) : bool := negb (String.eqb p "").

(** The closure as [process_responses_llm] builds it for its documents. *)
Definition gen_responses_of (generated_responses : list pyval) (docs : list Document)
    : nat → result (pyval * list (string * pyval)) :=
  gen_responses generated_responses (titles_of docs) (page_numbers_of docs)
                (sources_of docs) (publish_date_texts docs) (timestamps_of docs)
                (urls_of docs).

(** The paragraphs of a model output. *)
Definition paragraphs (responses_llm : string) : list string :=
  split double_line_break responses_llm.

(** ** [append_metadata_to_content] *)

(** [str(v)], as an f-string prints a value. *)
Definition py_str (v : pyval) : string :=
  match v with
  | VNone => "None"
  | VStr s => s
  | VInt n => pretty n
  end.

Section append_metadata.
Variable Score : Type.

(** The dictionary built for each document: its keys are "content",
  "metadata" and "score". *)
Record updated_doc_info : Type := {
content : string;
info_metadata : gmap string pyval;
score : Score
}.

Definition append_metadata_to_content (doc_list : list (Document * Score))
  : list updated_doc_info :=
foldl (λ (updated_docs : list updated_doc_info) (doc_tuple : Document * Score),
         let doc := doc_tuple.1 in
         let score := doc_tuple.2 in
         let metadata := metadata doc in
         let publish_date := dict_get metadata "publish_date" VNone in
         let updated_content :=
           if is_not_None publish_date
           then "Document: " +:+ page_content doc +:+ " (Published on: "
                +:+ py_str publish_date +:+ ")"
           else page_content doc in
         updated_docs ++ [ {| content := updated_content;
                              info_metadata := metadata;
                              score := score |} ])
      [] doc_list.
End append_metadata.

Arguments content {Score}.
Arguments info_metadata {Score}.
Arguments score {Score}.

(** ** Notions used in the further properties *)

(** The keys a citation can have, in the order they are set. *)
Definition citation_keys : list string :=
  ["Title"; "Published"; "URL"; "Video timestamp"; "Name"; "Page Number"].

(** [c] occurs in [s]. *)
Fixpoint has_char (c : ascii) (s : string) : bool :=
  match s with
  | EmptyString => false
  | String x s' => Ascii.eqb c x || has_char c s'
  end.

(** ** The records of the evaluation file

    [get_test_cases] in [evaluate/test_evaluate_tsv.py] reads each row of
    the file with [row.strip().split('\t')]; [read_record] is what it makes
    of one row: the query and the expected output. *)

Definition TAB : ascii := "009"%char.

(** [str.isspace] on one character, for code points below 256. *)
Definition isspace (c : ascii) : bool :=
  let n := code c in
  ((9 <=? n) && (n <=? 13)) || ((28 <=? n) && (n <=? 32))
  || (n =? 133) || (n =? 160).

Fixpoint lstrip (s : string) : string :=
  match s with
  | EmptyString => ""
  | String c s' => if isspace c then lstrip s' else s
  end.

Fixpoint rstrip (s : string) : string :=
  match s with
  | EmptyString => ""
  | String c s' =>
      let r := rstrip s' in
      if String.eqb r "" && isspace c then "" else String c r
  end.

(** [s.strip()] *)
Definition strip (s : string) : string := rstrip (lstrip s).

Definition read_record (row : string) : result (string * string) :=
  let row_obj := split (String TAB "") (strip row) in
  if (length row_obj =? 1)%nat
  then query ← py_index row_obj 0; Ok (query, "")
  else
    match row_obj with
    | [query; expected_output] => Ok (query, expected_output)
    | _ => Raise ValueError (* the list does not unpack into two names *)
    end.

(** The metadata keys that [process_responses_llm] reads. *)
Definition metadata_keys : list string :=
  ["title"; "source"; "page_number"; "publish_date"; "timestamp"; "url"].

(** ** The first paragraph of a text, said without splitting *)

(** [sub] occurs in [s]. *)
Definition occurs (sub s : string) : Prop := ∃ a b, s = a +:+ sub +:+ b.

(** [first] is what precedes the first double line break of [out]: the
    whole of [out] when no double line break occurs in it; otherwise [out]
    is [first], a double line break and a rest, and no double line break
    begins within [first]. *)
Definition is_first_paragraph (out first : string) : Prop :=
  (¬ occurs double_line_break out ∧ first = out)
  ∨ (∃ rest, out = first +:+ double_line_break +:+ rest
             ∧ ¬ occurs double_line_break (first +:+ String LF "")).

(** * Sanity checks of the embedding *)

Example timestamp_hours_minutes : timestamp_to_seconds (VStr "1:02") = Ok (Some 3720).
Proof. vm_compute. reflexivity. Qed.

Example timestamp_not_a_string : timestamp_to_seconds (VInt 5) = Raise TypeError.
Proof. reflexivity. Qed.

Example split_paragraphs :
  split double_line_break ("a" +:+ double_line_break +:+ "b" +:+ String LF "c")
  = ["a"; "b" +:+ String LF "c"].
Proof. vm_compute. reflexivity. Qed.

Example split_dashes : split "-" "--a-" = [""; ""; "a"; ""].
Proof. vm_compute. reflexivity. Qed.

Example int_literals :
  py_int <$> [" +1_0 "; "1__0"; "_1"; "1_"; ""; "007"; "- 1"; "-5"; "5 5"; "+"]
  = [Ok 10; Raise ValueError; Raise ValueError; Raise ValueError; Raise ValueError;
     Ok 7; Raise ValueError; Ok (-5); Raise ValueError; Raise ValueError].
Proof. vm_compute. reflexivity. Qed.

Example basenames :
  (basename "a/b/c.pdf", basename "c.pdf", basename "a/") = ("c.pdf", "c.pdf", "").
Proof. vm_compute. reflexivity. Qed.

Example dates :
  convert_date_format <$>
    [VStr "12-31-1999"; VStr "2-30-2024"; VStr "2-29-2024"; VStr "13-1-2024";
     VStr "1-1-20245"; VStr "1-1-0000"; VInt 5; VNone; VStr "date not available";
     VStr "1- 4-2024"; VStr "1-1-0987"; VStr " 1-1-2024"; VStr "00-1-2024"]
  = [Ok "12/31/1999"; Ok "Invalid date format"; Ok "02/29/2024";
     Ok "Invalid date format"; Ok "Invalid date format"; Ok "Invalid date format";
     Ok "Invalid input: not a string"; Ok "Invalid input: not a string";
     Ok "Invalid date format";
     Ok "01/04/2024"; Ok "01/01/987"; Ok "Invalid date format";
     Ok "Invalid date format"].
Proof. vm_compute. reflexivity. Qed.

Example full_citation :
  process_responses_llm "depth" "x"
    (Some [doc_of [("timestamp", VStr "0:00:42"); ("url", VStr "https://v.example/w?x=1");
                   ("page_number", VInt 3); ("source", VStr "a/b/c.mp4")]])
  = Ok {| card_type := "depth";
          responses := [VStr "x"];
          citations :=
            [[("Title", VStr "a/b/c.mp4"); ("Published", VStr "Invalid date format");
              ("URL", VStr "https://v.example/w?x=1&t=42s");
              ("Video timestamp", VStr "0:00:42"); ("Name", VStr "c.mp4");
              ("Page Number", VInt 3)]] |}.
Proof. vm_compute. reflexivity. Qed.

Example append_metadata_sample :
  content <$>
    append_metadata_to_content unit
      [({| page_content := "minutes"; metadata := {[ "publish_date" := VStr "3-4-2024" ]} |}, ());
       ({| page_content := "agenda"; metadata := ∅ |}, ());
       ({| page_content := "notes"; metadata := {[ "publish_date" := VNone ]} |}, ())]
  = ["Document: minutes (Published on: 3-4-2024)"; "agenda"; "notes"].
Proof. vm_compute. reflexivity. Qed.

Example read_record_samples :
  read_record <$>
    ["q" +:+ String TAB "e" +:+ String LF "";
     "q" +:+ String TAB (String LF "");
     String TAB "e" +:+ String LF "";
     " q" +:+ String TAB "e " +:+ String LF "";
     "q" +:+ String TAB "e" +:+ String TAB "z"]
  = [Ok ("q", "e"); Ok ("q", ""); Ok ("e", ""); Ok ("q", "e"); Raise ValueError].
Proof. vm_compute. reflexivity. Qed.

(** * Properties *)

(** ** The result monad *)

Lemma mapM_result_Ok {A B} (f : A → result B) (g : A → B) (l : list A) :
  (∀ x, x ∈ l → f x = Ok (g x)) → mapM f l = Ok (g <$> l).
Proof.
  induction l as [|x l IH]; intros Hf; [reflexivity|].
  cbn. rewrite (Hf x) by left. cbn.
  rewrite IH; [reflexivity|]. intros y Hy. apply Hf. by right.
Qed.

Lemma mapM_result_Raise {A B} (f : A → result B) (l : list A) (e : exn) :
  mapM f l = Raise e → ∃ x, x ∈ l ∧ f x = Raise e.
Proof.
  induction l as [|x l IH]; cbn; [discriminate|].
  destruct (f x) as [y|e'] eqn:Hx; cbn.
  - destruct (mapM f l) as [k|e'] eqn:Hl; cbn; [discriminate|].
    intros [= ->]. destruct IH as (z & Hz & Hfz); [reflexivity|].
    exists z. split; [by right|done].
  - intros [= ->]. exists x. split; [by left|done].
Qed.

Lemma py_index_lookup {A} (l : list A) (i : nat) (x : A) :
  l !! i = Some x → py_index l i = Ok x.
Proof. unfold py_index. by intros ->. Qed.

Lemma item_or_None_lookup (l : list pyval) (i : nat) :
  item_or_None l i = Ok (default VNone (l !! i)).
Proof.
  unfold item_or_None, py_index.
  destruct (Nat.ltb_spec i (length l)) as [Hlt|Hge].
  - destruct (lookup_lt_is_Some_2 l i Hlt) as [x ->]. reflexivity.
  - by rewrite lookup_ge_None_2.
Qed.

(** ** Splitting *)

Lemma split_go_nonempty (sep : string) (s : string) :
  ∀ skip cur, split_go sep skip cur s ≠ [].
Proof.
  induction s as [|c s IH]; intros skip cur; cbn [split_go]; [done|].
  destruct skip; [|apply IH].
  destruct (String.prefix sep (String c s)); [done|apply IH].
Qed.

Lemma split_nonempty (sep s : string) : ∃ first others, split sep s = first :: others.
Proof.
  destruct (split sep s) as [|x l] eqn:E; [|eauto].
  by apply split_go_nonempty in E.
Qed.

Lemma string_app_cons (x : ascii) (a b : string) :
  String x a +:+ b = String x (a +:+ b).
Proof. reflexivity. Qed.

Lemma string_app_empty_l (b : string) : "" +:+ b = b.
Proof. reflexivity. Qed.

Lemma string_app_assoc (a b c : string) : (a +:+ b) +:+ c = a +:+ (b +:+ c).
Proof.
  induction a as [|x a IH]; [done|].
  rewrite !string_app_cons. by f_equal.
Qed.

Lemma string_app_empty_r (a : string) : a +:+ "" = a.
Proof.
  induction a as [|x a IH]; [done|].
  rewrite string_app_cons. by f_equal.
Qed.

Lemma prefix_empty (s : string) : String.prefix "" s = true.
Proof. by destruct s. Qed.

Lemma prefix_char (a b : ascii) (s : string) :
  String.prefix (String a "") (String b s) = Ascii.eqb a b.
Proof.
  cbn. destruct (ascii_dec a b) as [->|Hne].
  - by rewrite prefix_empty, Ascii.eqb_refl.
  - symmetry. by apply Ascii.eqb_neq.
Qed.

(** A string without ['-'] in front of nothing, or in front of a ['-'], is
    the first piece of the split on ["-"]. *)
Lemma split_dash_first (start rest : string) :
  contains "-" start = false →
  (rest = "" ∨ ∃ r, rest = String "-" r) →
  ∀ cur, ∃ others, split_go "-" 0 cur (start +:+ rest) = (cur +:+ start) :: others.
Proof.
  intros Hno Hrest.
  induction start as [|c start IH]; intros cur.
  - rewrite string_app_empty_l, string_app_empty_r.
    destruct Hrest as [->|[r ->]]; cbn [split_go]; [by eauto|].
    rewrite prefix_char. cbn. eauto.
  - cbn [contains] in Hno. apply orb_false_iff in Hno as [Hc Hno].
    rewrite prefix_char in Hc.
    destruct (IH Hno (cur +:+ String c "")) as [others Ho].
    rewrite string_app_cons.
    cbn [split_go]. rewrite prefix_char, Hc, Ho, string_app_assoc.
    rewrite string_app_cons, string_app_empty_l. eauto.
Qed.

(** ** [int] and [timestamp_to_seconds] *)

Lemma py_int_raises (s : string) (e : exn) : py_int s = Raise e → e = ValueError.
Proof. unfold py_int. repeat case_match; congruence. Qed.

Lemma timestamp_to_seconds_str (ts : string) :
  timestamp_to_seconds (VStr ts) =
    if contains "timestamp not available" ts then Ok None
    else
      time_parts ← mapM py_int (split ":" (hd "" (split "-" ts)));
      match time_parts with
      | [h; m; s] => Ok (Some (h * 3600 + m * 60 + s))
      | [h; m] => Ok (Some (h * 3600 + m * 60 + 0))
      | _ => Raise ValueError
      end.
Proof.
  unfold timestamp_to_seconds. case_match; [done|].
  destruct (split_nonempty "-" ts) as (x & l & ->). reflexivity.
Qed.

Lemma timestamp_to_seconds_raises (ts : string) (e : exn) :
  timestamp_to_seconds (VStr ts) = Raise e → e = ValueError.
Proof.
  rewrite timestamp_to_seconds_str. case_match; [done|].
  destruct (mapM py_int _) as [parts|e'] eqn:E; cbn.
  - repeat case_match; congruence.
  - intros [= ->]. apply mapM_result_Raise in E as (x & _ & Hx).
    by apply py_int_raises in Hx.
Qed.

(** ** [strptime] and [convert_date_format] *)

Lemma compile_format_mdY :
  compile_format "%m-%d-%Y" =
    Ok [Group "m" month_alts; Lit "-"; Group "d" day_alts; Lit "-";
        Group "Y" year_alts].
Proof. reflexivity. Qed.

(** ['-'] is not a directive: the second format is rejected before the
    data is looked at. *)
Lemma strptime_bad_directive (s : string) :
  strptime s "%-m-%-d-%Y" = Raise ValueError.
Proof. reflexivity. Qed.

Lemma bind_Raise {A B} (r : result A) (k : A → result B) (e : exn) :
  r ≫= k = Raise e → r = Raise e ∨ ∃ a, r = Ok a ∧ k a = Raise e.
Proof. destruct r as [a|e']; cbn; [eauto|]. intros [= ->]. by left. Qed.

Lemma found_int_raises (dflt : Z) (g : option string) (e : exn) :
  from_option py_int (Ok dflt) g = Raise e → e = ValueError.
Proof. destruct g as [s|]; cbn; [apply py_int_raises|done]. Qed.

Lemma found_year_raises (g : option string) (e : exn) :
  from_option (λ s, Some <$> py_int s) (Ok None) g = Raise e → e = ValueError.
Proof.
  destruct g as [s|]; cbn; [|done].
  destruct (py_int s) as [y|e'] eqn:E; cbn; [done|].
  intros [= <-]. by apply py_int_raises in E.
Qed.

Lemma check_date_fields_raises (y m d : Z) (e : exn) :
  check_date_fields y m d = Raise e → e = ValueError.
Proof. unfold check_date_fields. case_match; congruence. Qed.

Lemma strptime_mdY_raises (s : string) (e : exn) :
  strptime s "%m-%d-%Y" = Raise e → e = ValueError.
Proof.
  unfold strptime. rewrite compile_format_mdY. cbn [mbind result_bind].
  destruct (head _) as [[found rest]|]; [|congruence].
  destruct (negb _); [congruence|].
  intros H.
  apply bind_Raise in H as [H|(y & _ & H)]; [by apply found_year_raises in H|].
  apply bind_Raise in H as [H|(m & _ & H)]; [by apply found_int_raises in H|].
  apply bind_Raise in H as [H|(d & _ & H)]; [by apply found_int_raises in H|].
  apply bind_Raise in H as [H|(u & _ & H)]; [by apply check_date_fields_raises in H|].
  discriminate.
Qed.

Lemma convert_date_format_str (s : string) :
  convert_date_format (VStr s) =
    if contains "/" s then Ok s
    else match strptime s "%m-%d-%Y" with
         | Ok date_obj => Ok (strftime_mdY date_obj)
         | Raise _ => Ok "Invalid date format"
         end.
Proof.
  unfold convert_date_format. case_match; [done|].
  rewrite strptime_bad_directive.
  destruct (strptime s "%m-%d-%Y") as [d|e] eqn:E; [done|].
  apply strptime_mdY_raises in E as ->. reflexivity.
Qed.

Lemma convert_date_format_Ok (v : pyval) :
  convert_date_format v = Ok (date_text v).
Proof.
  unfold date_text. destruct v as [|s|n]; try reflexivity.
  rewrite convert_date_format_str. by repeat case_match.
Qed.

Lemma publish_dates_of_Ok (docs : list Document) :
  publish_dates_of docs = Ok (publish_date_texts docs).
Proof.
  unfold publish_dates_of, publish_date_texts.
  apply (mapM_result_Ok _ (λ doc, VStr (date_text _))).
  intros doc _. by rewrite convert_date_format_Ok.
Qed.

(** ** [gen_responses] *)

Lemma citation_of_dict_set (title date url ts name page : pyval) :
  (let citation := [] in
   let citation :=
     if is_not_None title then dict_set citation "Title" title else citation in
   let citation :=
     if is_not_None date then dict_set citation "Published" date else citation in
   let citation :=
     if is_not_None url then dict_set citation "URL" url else citation in
   let citation :=
     if is_not_None ts then dict_set citation "Video timestamp" ts else citation in
   let citation :=
     if is_not_None name then dict_set citation "Name" name else citation in
   let citation :=
     if is_not_None page then dict_set citation "Page Number" page else citation in
   citation) = citation_of title date url ts name page.
Proof.
  unfold citation_of, field.
  destruct (is_not_None title), (is_not_None date), (is_not_None url),
    (is_not_None ts), (is_not_None name), (is_not_None page); reflexivity.
Qed.

Section closure_properties.
Variables generated_responses generated_titles page_numbers : list pyval.
Variables generated_sources publish_dates timestamps urls : list pyval.

Local Abbreviation gen :=
  (gen_responses generated_responses generated_titles page_numbers
                 generated_sources publish_dates timestamps urls).
Local Abbreviation body :=
  (collect generated_responses generated_titles page_numbers
           generated_sources publish_dates timestamps urls).

Lemma gen_responses_eq (i : nat) :
  gen i =
    (source_name ←
       match generated_sources !! i with
       | Some source => py_basename source
       | None => Ok VNone
       end;
     source_url ← url_with_offset (default VNone (urls !! i))
                                  (default VNone (timestamps !! i));
     Ok (default VNone (generated_responses !! i),
         citation_of (default VNone (generated_titles !! i))
                     (default VNone (publish_dates !! i))
                     source_url
                     (default VNone (timestamps !! i))
                     source_name
                     (default VNone (page_numbers !! i)))).
Proof.
  unfold gen_responses. rewrite !item_or_None_lookup. cbn [mbind result_bind].
  assert (Hsrc :
    (if (i <? length generated_sources)%nat
     then source ← py_index generated_sources i; py_basename source
     else Ok VNone)
    = match generated_sources !! i with
      | Some source => py_basename source
      | None => Ok VNone
      end).
  { unfold py_index.
    destruct (Nat.ltb_spec i (length generated_sources)) as [Hlt|Hge].
    - destruct (lookup_lt_is_Some_2 _ _ Hlt) as [x ->]. reflexivity.
    - by rewrite lookup_ge_None_2. }
  rewrite Hsrc.
  destruct (match generated_sources !! i with Some _ => _ | None => _ end)
    as [name|e]; [|reflexivity].
  cbn [mbind result_bind]. fold (url_with_offset (default VNone (urls !! i))
                                   (default VNone (timestamps !! i))).
  destruct (url_with_offset _ _) as [url|e]; [|reflexivity].
  cbn [mbind result_bind]. f_equal. f_equal. apply citation_of_dict_set.
Qed.

Lemma gen_responses_response (i : nat) (r : pyval) (c : list (string * pyval)) :
  gen i = Ok (r, c) → r = default VNone (generated_responses !! i).
Proof.
  rewrite gen_responses_eq. intros H.
  destruct (match generated_sources !! i with Some _ => _ | None => _ end);
    [|discriminate].
  cbn in H. destruct (url_with_offset _ _); [|discriminate].
  cbn in H. congruence.
Qed.

Lemma gen_responses_raises (i : nat) (e : exn) :
  gen i = Raise e → e = ValueError ∨ e = TypeError.
Proof.
  rewrite gen_responses_eq. intros H.
  apply bind_Raise in H as [H|(name & _ & H)].
  { destruct (generated_sources !! i) as [[]|]; cbn in H; naive_solver. }
  apply bind_Raise in H as [H|(url & _ & H)]; [|discriminate].
  unfold url_with_offset in H. case_match; [|discriminate].
  apply bind_Raise in H as [H|(t & _ & H)].
  { destruct (default VNone (timestamps !! i)) as [|ts|n]; cbn in H;
      [naive_solver| |naive_solver].
    left. by eapply timestamp_to_seconds_raises. }
  destruct t as [t|]; [|discriminate].
  right. destruct (default VNone (urls !! i)); cbn in H;
    repeat case_match; congruence.
Qed.

Lemma collect_eq (st : list pyval * list (list (string * pyval))) (i : nat) :
  body st i =
    (rc ← gen i;
     Ok (if truthy rc.1 then st.1 ++ [rc.1] else st.1,
         if nonempty rc.2 then st.2 ++ [rc.2] else st.2)).
Proof. reflexivity. Qed.

Lemma for_each_collect (len : nat) :
  ∀ a rs cs rs' cs',
    for_each body (seq a len) (rs, cs) = Ok (rs', cs') →
    rs' = rs ++ List.filter truthy
                  ((λ i, default VNone (generated_responses !! i)) <$> seq a len)
    ∧ ∃ cits, Forall2 (λ i c, ∃ r, gen i = Ok (r, c)) (seq a len) cits
              ∧ cs' = cs ++ List.filter nonempty cits.
Proof.
  induction len as [|len IH]; intros a rs cs rs' cs'.
  - cbn. intros [= <- <-]. rewrite !app_nil_r. split; [done|].
    exists []. split; [constructor|]. by rewrite app_nil_r.
  - cbn [seq for_each]. rewrite collect_eq.
    destruct (gen a) as [[r c]|e] eqn:Hg; cbn [mbind result_bind fst snd];
      [|discriminate].
    intros H.
    apply IH in H as (-> & cits & Hcits & ->).
    apply gen_responses_response in Hg as Hr. subst r.
    split.
    + cbn [fmap list_fmap List.filter].
      destruct (truthy _); by rewrite <- ?app_assoc.
    + exists (c :: cits). split; [constructor; eauto|].
      cbn [List.filter]. destruct (nonempty c); by rewrite <- ?app_assoc.
Qed.

Lemma for_each_collect_raises (len : nat) :
  ∀ a st e,
    for_each body (seq a len) st = Raise e → e = ValueError ∨ e = TypeError.
Proof.
  induction len as [|len IH]; intros a st e; [discriminate|].
  cbn [seq for_each]. intros H.
  apply bind_Raise in H as [H|(st' & _ & H)]; [|by eapply IH].
  rewrite collect_eq in H.
  apply bind_Raise in H as [H|(rc & _ & H)]; [|discriminate].
  by eapply gen_responses_raises.
Qed.

Lemma for_each_collect_returns (len : nat) :
  ∀ a st,
    (∀ i, (a ≤ i < a + len)%nat → ∃ rc, gen i = Ok rc) →
    ∃ st', for_each body (seq a len) st = Ok st'.
Proof.
  induction len as [|len IH]; intros a st Hok; [by eexists|].
  cbn [seq for_each]. rewrite collect_eq.
  destruct (Hok a) as [rc ->]; [lia|]. cbn [mbind result_bind].
  apply IH. intros i Hi. apply Hok. lia.
Qed.

Lemma for_each_collect_aborts (len : nat) :
  ∀ a st i e,
    (a ≤ i < a + len)%nat → gen i = Raise e →
    ∃ e', for_each body (seq a len) st = Raise e'.
Proof.
  induction len as [|len IH]; intros a st i e Hi Hg; [lia|].
  cbn [seq for_each]. rewrite collect_eq.
  destruct (gen a) as [rc|e'] eqn:Ha; cbn [mbind result_bind]; [|by eexists].
  destruct (decide (i = a)) as [->|Hne]; [congruence|].
  apply (IH _ _ i e); [lia|done].
Qed.
End closure_properties.

(** ** The closure over the documents of a call *)

Lemma gen_responses_of_in_range (grs : list pyval) (docs : list Document)
    (i : nat) (d : Document) :
  docs !! i = Some d →
  gen_responses_of grs docs i =
    (source_name ←
       py_basename (dict_get (metadata d) "source" (VStr "source not available"));
     source_url ←
       url_with_offset (dict_get (metadata d) "url" (VStr "url not available"))
         (dict_get (metadata d) "timestamp" (VStr "timestamp not available"));
     Ok (default VNone (grs !! i),
         citation_of
           (dict_get (metadata d) "title" (dict_get (metadata d) "source" (VStr "")))
           (VStr (date_text
                    (dict_get (metadata d) "publish_date" (VStr "date not available"))))
           source_url
           (dict_get (metadata d) "timestamp" (VStr "timestamp not available"))
           source_name
           (dict_get (metadata d) "page_number" VNone))).
Proof.
  intros Hd. unfold gen_responses_of. rewrite gen_responses_eq.
  unfold titles_of, page_numbers_of, sources_of, publish_date_texts,
    timestamps_of, urls_of.
  rewrite !list_lookup_fmap, Hd. reflexivity.
Qed.

Lemma gen_responses_of_beyond (grs : list pyval) (docs : list Document) (i : nat) :
  docs !! i = None →
  gen_responses_of grs docs i = Ok (default VNone (grs !! i), []).
Proof.
  intros Hd. unfold gen_responses_of. rewrite gen_responses_eq.
  unfold titles_of, page_numbers_of, sources_of, publish_date_texts,
    timestamps_of, urls_of.
  rewrite !list_lookup_fmap, Hd. reflexivity.
Qed.

Lemma dict_lookup_keys (d : list (string * pyval)) (key : string) (v : pyval) :
  dict_lookup d key = Some v → key ∈ dict_keys d.
Proof.
  unfold dict_keys. induction d as [|[k w] d IH]; cbn; [done|].
  destruct (String.eqb_spec k key) as [->|Hne].
  - intros _. left.
  - intros H. right. by apply IH.
Qed.

Lemma citation_of_Name (title date url ts page : pyval) (name : string) :
  dict_lookup (citation_of title date url ts (VStr name) page) "Name"
  = Some (VStr name).
Proof.
  unfold citation_of, field.
  destruct (is_not_None title), (is_not_None date), (is_not_None url),
    (is_not_None ts), (is_not_None page); reflexivity.
Qed.

Lemma citation_of_URL (title date ts name page : pyval) (u : string) :
  dict_lookup (citation_of title date (VStr u) ts name page) "URL" = Some (VStr u).
Proof.
  unfold citation_of, field.
  destruct (is_not_None title), (is_not_None date); reflexivity.
Qed.

Lemma citation_of_nonempty (title date url ts page : pyval) (name : string) :
  nonempty (citation_of title date url ts (VStr name) page) = true.
Proof.
  unfold citation_of, field.
  destruct (is_not_None title), (is_not_None date), (is_not_None url),
    (is_not_None ts), (is_not_None page); reflexivity.
Qed.

(** Within the documents, a citation that is built has its ["Name"]. *)
Lemma gen_responses_of_Name (grs : list pyval) (docs : list Document)
    (i : nat) (r : pyval) (c : list (string * pyval)) :
  (i < length docs)%nat →
  gen_responses_of grs docs i = Ok (r, c) →
  nonempty c = true ∧ "Name" ∈ dict_keys c.
Proof.
  intros Hi. destruct (lookup_lt_is_Some_2 _ _ Hi) as [d Hd].
  rewrite (gen_responses_of_in_range _ _ _ _ Hd).
  destruct (dict_get (metadata d) "source" (VStr "source not available"))
    as [|p|n]; cbn [py_basename];
    cbn [mbind result_bind]; try discriminate.
  destruct (url_with_offset _ _) as [url|e]; cbn [mbind result_bind];
    [|discriminate].
  intros [= <- <-]. split; [apply citation_of_nonempty|].
  eapply dict_lookup_keys, citation_of_Name.
Qed.

Lemma gen_responses_of_returns (grs : list pyval) (docs : list Document) (i : nat) :
  (∀ d, docs !! i = Some d → well_formed_metadata d = true) →
  ∃ rc, gen_responses_of grs docs i = Ok rc.
Proof.
  intros Hwf. destruct (docs !! i) as [d|] eqn:Hd.
  - rewrite (gen_responses_of_in_range _ _ _ _ Hd).
    specialize (Hwf d eq_refl). unfold well_formed_metadata in Hwf.
    destruct (dict_get (metadata d) "source" (VStr "source not available"))
    as [|p|n]; try discriminate.
    cbn [py_basename mbind result_bind].
    unfold url_with_offset.
    destruct (truthy _ && truthy _); [|by eexists].
    destruct (timestamp_to_seconds _) as [[t|]|e]; try discriminate;
      cbn [mbind result_bind]; [|by eexists].
    destruct (dict_get (metadata d) "url" _) as [|u|n]; try discriminate.
    cbn [py_contains mbind result_bind]. destruct (contains "?" u); by eexists.
  - rewrite gen_responses_of_beyond by done. by eexists.
Qed.

(** ** The assembler *)

Lemma filter_prefix {A} (f : A → bool) (l : list A) :
  ∀ n : nat,
    (∀ i x, l !! i = Some x → (f x = true ↔ (i < n)%nat)) →
    List.filter f l = take n l.
Proof.
  induction l as [|x l IH]; intros n H; [by rewrite take_nil|].
  cbn [List.filter]. destruct n as [|n].
  - destruct (f x) eqn:Hx.
    + apply (H 0%nat x eq_refl) in Hx. lia.
    + cbn. apply (IH 0%nat). intros i y Hy.
      specialize (H (S i) y Hy). split; [|lia]. intros Hf. apply H in Hf. lia.
  - destruct (f x) eqn:Hx.
    + cbn. f_equal. apply IH. intros i y Hy.
      specialize (H (S i) y Hy). rewrite H. lia.
    + assert (f x = true) as Ht by (apply (H 0%nat x eq_refl); lia). congruence.
Qed.

Lemma lookups_seq (l : list pyval) :
  (λ i, default VNone (l !! i)) <$> seq 0 (length l) = l.
Proof.
  apply list_eq. intros i. rewrite list_lookup_fmap.
  destruct (decide (i < length l)%nat) as [Hlt|Hge].
  - rewrite lookup_seq_lt by done. cbn.
    destruct (lookup_lt_is_Some_2 _ _ Hlt) as [x ->]. reflexivity.
  - rewrite lookup_seq_ge by lia. cbn. by rewrite lookup_ge_None_2 by lia.
Qed.

Lemma filter_truthy_VStr (l : list string) :
  List.filter truthy (VStr <$> l) = VStr <$> List.filter nonempty_text l.
Proof.
  induction l as [|p l IH]; [done|].
  cbn [fmap list_fmap List.filter]. unfold nonempty_text at 1. cbn [truthy].
  destruct (negb _); cbn; by rewrite IH.
Qed.

Lemma process_responses_llm_docs (tag out : string) (doc : Document)
    (docs' : list Document) :
  process_responses_llm tag out (Some (doc :: docs')) =
    (rc ← for_each
            (collect (VStr <$> paragraphs out) (titles_of (doc :: docs'))
               (page_numbers_of (doc :: docs')) (sources_of (doc :: docs'))
               (publish_date_texts (doc :: docs')) (timestamps_of (doc :: docs'))
               (urls_of (doc :: docs')))
            (seq 0 (length (VStr <$> paragraphs out))) ([], []);
     Ok {| card_type := tag; responses := rc.1; citations := rc.2 |}).
Proof.
  unfold process_responses_llm. rewrite publish_dates_of_Ok. reflexivity.
Qed.

(** What a returned card holds, for a non-empty list of documents. *)
Lemma process_responses_llm_Ok (tag out : string) (docs : list Document) (c : card) :
  docs ≠ [] →
  process_responses_llm tag out (Some docs) = Ok c →
  card_type c = tag
  ∧ responses c = VStr <$> List.filter nonempty_text (paragraphs out)
  ∧ length (citations c) = (length (paragraphs out) `min` length docs)%nat
  ∧ ∀ i, (i < length (paragraphs out) `min` length docs)%nat →
         ∃ r ci, gen_responses_of (VStr <$> paragraphs out) docs i = Ok (r, ci)
                 ∧ citations c !! i = Some ci.
Proof.
  intros Hne. destruct docs as [|doc docs']; [done|]. clear Hne.
  rewrite process_responses_llm_docs.
  set (docs := doc :: docs'). set (grs := VStr <$> paragraphs out).
  intros H.
  destruct (for_each _ _ _) as [[rs cs]|e] eqn:Hloop; [|discriminate].
  cbn in H. injection H as <-.
  apply for_each_collect in Hloop as (-> & cits & Hcits & ->).
  cbn [card_type responses citations app].
  fold (gen_responses_of grs docs) in Hcits.
  assert (Hlen : length cits = length (paragraphs out)).
  { apply Forall2_length in Hcits. rewrite length_seq in Hcits.
    unfold grs in Hcits. rewrite length_fmap in Hcits. done. }
  assert (Hat : ∀ i ci, cits !! i = Some ci →
                        ∃ r, gen_responses_of grs docs i = Ok (r, ci)).
  { intros i ci Hi.
    destruct (Forall2_lookup_r _ _ _ _ _ Hcits Hi) as (j & Hj & Hg).
    apply lookup_seq in Hj as [-> _]. exact Hg. }
  assert (Hfilter : List.filter nonempty cits = take (length docs) cits).
  { apply filter_prefix. intros i ci Hi.
    destruct (Hat i ci Hi) as [r Hg].
    destruct (decide (i < length docs)%nat) as [Hlt|Hge].
    - pose proof (gen_responses_of_Name _ _ _ _ _ Hlt Hg) as [Hn _]. done.
    - rewrite gen_responses_of_beyond in Hg by (apply lookup_ge_None_2; lia).
      injection Hg as _ <-. cbn [nonempty]. split; [discriminate|intros ?; lia]. }
  rewrite Hfilter. split; [done|]. split.
  { rewrite lookups_seq. apply filter_truthy_VStr. }
  split.
  { rewrite length_take. lia. }
  intros i Hi. rewrite lookup_take_lt by lia.
  destruct (lookup_lt_is_Some_2 cits i) as [ci Hci]; [lia|].
  destruct (Hat i ci Hci) as [r Hg]. eauto.
Qed.

Lemma process_responses_llm_raises (tag out : string)
    (docs : option (list Document)) (e : exn) :
  process_responses_llm tag out docs = Raise e → e = ValueError ∨ e = TypeError.
Proof.
  destruct docs as [[|doc docs']|].
  - unfold process_responses_llm.
    destruct (split_nonempty double_line_break out) as (p & ps & ->). discriminate.
  - rewrite process_responses_llm_docs. intros H.
    apply bind_Raise in H as [H|(rc & _ & H)]; [|discriminate].
    by eapply for_each_collect_raises.
  - unfold process_responses_llm.
    destruct (split_nonempty double_line_break out) as (p & ps & ->). discriminate.
Qed.

Lemma process_responses_llm_returns (tag out : string) (docs : list Document) :
  (∀ i d, (i < length (paragraphs out))%nat → docs !! i = Some d →
          well_formed_metadata d = true) →
  ∃ c, process_responses_llm tag out (Some docs) = Ok c.
Proof.
  intros Hwf. destruct docs as [|doc docs'].
  - unfold process_responses_llm.
    destruct (split_nonempty double_line_break out) as (p & ps & ->). by eexists.
  - rewrite process_responses_llm_docs.
    destruct (for_each_collect_returns (VStr <$> paragraphs out)
                (titles_of (doc :: docs')) (page_numbers_of (doc :: docs'))
                (sources_of (doc :: docs')) (publish_date_texts (doc :: docs'))
                (timestamps_of (doc :: docs')) (urls_of (doc :: docs'))
                (length (VStr <$> paragraphs out)) 0 ([], [])) as [st ->].
    + intros i Hi. apply gen_responses_of_returns. intros d Hd.
      apply (Hwf i d); [|done]. rewrite length_fmap in Hi. lia.
    + by eexists.
Qed.

(** The citation aligned with a document, in a returned card. *)
Lemma citation_of_document (tag out : string) (docs : list Document) (c : card)
    (i : nat) (d : Document) :
  process_responses_llm tag out (Some docs) = Ok c →
  docs !! i = Some d →
  (i < length (paragraphs out))%nat →
  ∃ name url,
    py_basename (dict_get (metadata d) "source" (VStr "source not available"))
    = Ok name
    ∧ url_with_offset (dict_get (metadata d) "url" (VStr "url not available"))
        (dict_get (metadata d) "timestamp" (VStr "timestamp not available"))
      = Ok url
    ∧ citations c !! i
      = Some (citation_of
                (dict_get (metadata d) "title"
                   (dict_get (metadata d) "source" (VStr "")))
                (VStr (date_text
                         (dict_get (metadata d) "publish_date"
                            (VStr "date not available"))))
                url
                (dict_get (metadata d) "timestamp" (VStr "timestamp not available"))
                name
                (dict_get (metadata d) "page_number" VNone)).
Proof.
  intros Hc Hd Hi.
  assert (Hne : docs ≠ []) by (intros ->; done).
  destruct (process_responses_llm_Ok _ _ _ _ Hne Hc) as (_ & _ & _ & Hat).
  destruct (Hat i) as (r & ci & Hg & Hci).
  { apply lookup_lt_Some in Hd. lia. }
  rewrite (gen_responses_of_in_range _ _ _ _ Hd) in Hg.
  destruct (py_basename _) as [name|e]; cbn [mbind result_bind] in Hg;
    [|discriminate].
  destruct (url_with_offset _ _) as [url|e]; cbn [mbind result_bind] in Hg;
    [|discriminate].
  injection Hg as _ <-. by exists name, url.
Qed.

(** An exception of the closure, at the index of a paragraph, aborts the
    assembly. *)
Lemma process_responses_llm_aborts (tag out : string) (docs : list Document)
    (i : nat) (e : exn) :
  docs ≠ [] →
  (i < length (paragraphs out))%nat →
  gen_responses_of (VStr <$> paragraphs out) docs i = Raise e →
  ∃ e', process_responses_llm tag out (Some docs) = Raise e'.
Proof.
  intros Hne Hi Hg. destruct docs as [|doc docs']; [done|].
  rewrite process_responses_llm_docs.
  destruct (for_each_collect_aborts (VStr <$> paragraphs out)
              (titles_of (doc :: docs')) (page_numbers_of (doc :: docs'))
              (sources_of (doc :: docs')) (publish_date_texts (doc :: docs'))
              (timestamps_of (doc :: docs')) (urls_of (doc :: docs'))
              (length (VStr <$> paragraphs out)) 0 ([], []) i e) as [e' ->].
  - rewrite length_fmap. lia.
  - exact Hg.
  - by exists e'.
Qed.

(** ** The first paragraph *)

Lemma prefix_app (s b : string) : String.prefix s (s +:+ b) = true.
Proof.
  induction s as [|a s IH]; [apply prefix_empty|].
  rewrite string_app_cons. cbn. by destruct (ascii_dec a a).
Qed.

Lemma prefix_inv (sep : string) :
  ∀ s, String.prefix sep s = true → ∃ t, s = sep +:+ t.
Proof.
  induction sep as [|a sep IH]; intros s; [by exists s|].
  destruct s as [|c s]; cbn; [done|].
  destruct (ascii_dec a c) as [->|]; [|done].
  intros [t ->]%IH. by exists t.
Qed.

Lemma prefix_cons (a b : ascii) (s1 s2 : string) :
  String.prefix (String a s1) (String b s2)
  = if ascii_dec a b then String.prefix s1 s2 else false.
Proof. reflexivity. Qed.

Lemma occurs_cons_inv (c : ascii) (s : string) :
  occurs double_line_break (String c s) →
  String.prefix double_line_break (String c s) = true
  ∨ occurs double_line_break s.
Proof.
  intros (a & b & H). destruct a as [|x a].
  - left. rewrite string_app_empty_l in H. rewrite H. apply prefix_app.
  - right. rewrite string_app_cons in H. injection H as _ ->. by exists a, b.
Qed.

Lemma not_occurs_empty : ¬ occurs double_line_break "".
Proof. intros (a & b & H). by destruct a. Qed.

Lemma not_occurs_one (c : ascii) : ¬ occurs double_line_break (String c "").
Proof.
  intros [H|H]%occurs_cons_inv; [|by apply not_occurs_empty].
  unfold double_line_break in H. rewrite prefix_cons in H.
  by destruct (ascii_dec LF c).
Qed.

(** The first piece of the split on the double line break is the first
    paragraph. *)
Lemma split_go_first_paragraph (s : string) :
  ∀ cur first others,
    split_go double_line_break 0 cur s = first :: others →
    ∃ pre, first = cur +:+ pre ∧ is_first_paragraph s pre.
Proof.
  induction s as [|c s IH]; intros cur first others; cbn [split_go].
  - intros [= <- _]. exists "". rewrite string_app_empty_r. split; [done|].
    left. split; [apply not_occurs_empty|done].
  - destruct (String.prefix double_line_break (String c s)) eqn:Hp.
    + intros [= <- _]. exists "". rewrite string_app_empty_r. split; [done|].
      right. apply prefix_inv in Hp as [rest Hrest]. exists rest.
      split; [by rewrite string_app_empty_l|].
      rewrite string_app_empty_l. apply not_occurs_one.
    + intros H. apply IH in H as (pre & -> & Hpre).
      exists (String c pre). split.
      { by rewrite string_app_assoc, string_app_cons, string_app_empty_l. }
      destruct Hpre as [[Hno ->]|(rest & -> & Hno)].
      * left. split; [|done].
        intros [H|H]%occurs_cons_inv; [congruence|done].
      * right. exists rest. split; [by rewrite string_app_cons|].
        rewrite string_app_cons.
        intros [H|H]%occurs_cons_inv; [|done].
        unfold double_line_break in H, Hp. rewrite prefix_cons in H, Hp.
        destruct (ascii_dec LF c) as [_|]; [|done].
        destruct pre as [|x pre].
        -- rewrite string_app_empty_l in Hp. cbn in Hp. discriminate.
        -- rewrite !string_app_cons, prefix_cons in H, Hp.
           destruct (ascii_dec LF x); [|done].
           rewrite prefix_empty in Hp. discriminate.
Qed.

Lemma split_first_paragraph (out first : string) (others : list string) :
  split double_line_break out = first :: others → is_first_paragraph out first.
Proof.
  intros H. apply split_go_first_paragraph in H as (pre & -> & Hpre).
  by rewrite string_app_empty_l.
Qed.

Lemma occurs_cons (c : ascii) (s : string) :
  occurs double_line_break s → occurs double_line_break (String c s).
Proof.
  intros (a & b & ->). exists (String c a), b. by rewrite string_app_cons.
Qed.

Lemma occurs_here (s : string) :
  occurs double_line_break (String LF (String LF s)).
Proof. exists "", s. by rewrite string_app_empty_l. Qed.

Lemma text_before_first_break_unique (a : string) :
  ∀ b r1 r2,
    a +:+ double_line_break +:+ r1 = b +:+ double_line_break +:+ r2 →
    ¬ occurs double_line_break (a +:+ String LF "") →
    ¬ occurs double_line_break (b +:+ String LF "") →
    a = b.
Proof.
  induction a as [|x a IH]; intros [|y b] r1 r2 H Ha Hb; [done| | |].
  - exfalso. apply Hb. unfold double_line_break in H.
    rewrite string_app_empty_l, !string_app_cons, string_app_empty_l in H.
    injection H as <- H. rewrite string_app_cons.
    destruct b as [|z b].
    + rewrite string_app_empty_l. apply occurs_here.
    + rewrite !string_app_cons in H. injection H as <- _.
      rewrite string_app_cons. apply occurs_here.
  - exfalso. apply Ha. unfold double_line_break in H.
    rewrite string_app_empty_l, !string_app_cons, string_app_empty_l in H.
    injection H as -> H. rewrite string_app_cons.
    destruct a as [|z a].
    + rewrite string_app_empty_l. apply occurs_here.
    + rewrite !string_app_cons in H. injection H as -> _.
      rewrite string_app_cons. apply occurs_here.
  - rewrite !string_app_cons in H, Ha, Hb. injection H as -> H.
    f_equal. apply (IH b r1 r2 H).
    + intros ?. by apply Ha, occurs_cons.
    + intros ?. by apply Hb, occurs_cons.
Qed.

(** A text has one first paragraph only: [is_first_paragraph] determines
    it. *)
Lemma first_paragraph_unique (out a b : string) :
  is_first_paragraph out a → is_first_paragraph out b → a = b.
Proof.
  intros [[Hno ->]|(r1 & H1 & Ha)] [[Hno' ->]|(r2 & H2 & Hb)]; [done| | |].
  - exfalso. apply Hno. by exists b, r2.
  - exfalso. apply Hno'. by exists a, r1.
  - subst out. by apply (text_before_first_break_unique a b r1 r2).
Qed.

(** * The statements of the specification *)

(** ** C1 *)

(** C1, as stated, fails: with two paragraphs and one document, the second
    paragraph (index 1, beyond the documents) is emitted as a Section. *)
Lemma excess_paragraph_is_kept :
  paragraphs two_paragraphs = ["a"; "b"]
  ∧ process_responses_llm "depth" two_paragraphs (Some [doc_of []])
    = Ok {| card_type := "depth";
            responses := [VStr "a"; VStr "b"];
            citations := [default_citation (VStr "")] |}.
Proof. split; vm_compute; reflexivity. Qed.

(** C1 (amended): paragraphs in excess of the documents are not dropped.
    For a non-empty list of documents the Sections of a returned card are
    exactly the non-empty paragraphs of the model output, in order, whatever
    the number of documents; what is capped by the documents is the number
    of Citations.  A card is returned whenever the metadata is well formed. *)
Theorem sections_are_the_nonempty_paragraphs (tag out : string) (docs : list Document) :
  docs ≠ [] →
  (∀ c, process_responses_llm tag out (Some docs) = Ok c →
        responses c = VStr <$> List.filter nonempty_text (paragraphs out)
        ∧ length (citations c) = (length (paragraphs out) `min` length docs)%nat)
  ∧ (Forall (λ d, well_formed_metadata d = true) docs →
     ∃ c, process_responses_llm tag out (Some docs) = Ok c).
Proof.
  intros Hne. split.
  - intros c Hc.
    destruct (process_responses_llm_Ok _ _ _ _ Hne Hc) as (_ & Hr & Hl & _).
    by split.
  - intros Hwf. apply process_responses_llm_returns. intros i d _ Hd.
    rewrite Forall_lookup in Hwf. by apply (Hwf i).
Qed.

Lemma sections_are_the_nonempty_paragraphs_witness :
  (∀ c, process_responses_llm "depth" two_paragraphs (Some [doc_of []]) = Ok c →
        responses c = VStr <$> List.filter nonempty_text (paragraphs two_paragraphs)
        ∧ length (citations c)
          = (length (paragraphs two_paragraphs) `min` length [doc_of []])%nat)
  ∧ (Forall (λ d, well_formed_metadata d = true) [doc_of []] →
     ∃ c, process_responses_llm "depth" two_paragraphs (Some [doc_of []]) = Ok c).
Proof.
  apply (sections_are_the_nonempty_paragraphs "depth" two_paragraphs [doc_of []]).
  discriminate.
Defined.

(** ** C2 *)

(** C2, as stated, fails: a timestamp that is neither the sentinel nor
    well formed raises [ValueError], and the assembler lets it escape. *)
Lemma malformed_timestamp_raises :
  timestamp_to_seconds (VStr "abc") = Raise ValueError
  ∧ timestamp_to_seconds (VStr "1:2:3:4") = Raise ValueError
  ∧ process_responses_llm "depth" "x" (Some [doc_of [("timestamp", VStr "abc")]])
    = Raise ValueError.
Proof. repeat split; vm_compute; reflexivity. Qed.

(** C2 (amended): [convert_date_format] never raises, every input yields a
    text: the marker "Invalid date format" for a text without ['/'] that
    [strptime] rejects, and "Invalid input: not a string" for an input that
    is not a text.  [timestamp_to_seconds] yields no offset for a string
    that contains the sentinel; on any other string it raises [ValueError],
    and nothing else, exactly when the part before the first ['-'] is not
    two or three integers separated by [':'].  The assembler does not catch
    it: whenever a document at an index below the number of paragraphs has a
    true URL value (the default "url not available" when the key is
    missing) and a non-empty text timestamp on which [timestamp_to_seconds]
    raises, the assembler raises instead of returning a card. *)
Theorem date_parsing_is_lenient_timestamp_parsing_is_not :
  (∀ v, ∃ text, convert_date_format v = Ok text)
  ∧ (∀ s e, contains "/" s = false → strptime s "%m-%d-%Y" = Raise e →
            convert_date_format (VStr s) = Ok "Invalid date format")
  ∧ (∀ v, (∀ s, v ≠ VStr s) →
          convert_date_format v = Ok "Invalid input: not a string")
  ∧ (∀ ts, contains "timestamp not available" ts = true →
           timestamp_to_seconds (VStr ts) = Ok None)
  ∧ (∀ ts e, timestamp_to_seconds (VStr ts) = Raise e → e = ValueError)
  ∧ (∀ ts, timestamp_to_seconds (VStr ts) = Raise ValueError ↔
           contains "timestamp not available" ts = false
           ∧ ¬ ∃ parts, mapM py_int (split ":" (hd "" (split "-" ts))) = Ok parts
                        ∧ (length parts = 2 ∨ length parts = 3)%nat)
  ∧ (∀ tag out docs i d ts,
       docs !! i = Some d →
       (i < length (paragraphs out))%nat →
       truthy (dict_get (metadata d) "url" (VStr "url not available")) = true →
       metadata d !! "timestamp" = Some (VStr ts) → ts ≠ "" →
       timestamp_to_seconds (VStr ts) = Raise ValueError →
       ∃ e, process_responses_llm tag out (Some docs) = Raise e).
Proof.
  split; [|split; [|split; [|split; [|split; [|split]]]]].
  - intros v. exists (date_text v). apply convert_date_format_Ok.
  - intros s e Hs He. by rewrite convert_date_format_str, Hs, He.
  - intros [|s|n] Hv; [done| |done]. by destruct (Hv s).
  - intros ts Hs. by rewrite timestamp_to_seconds_str, Hs.
  - apply timestamp_to_seconds_raises.
  - intros ts. rewrite timestamp_to_seconds_str.
    destruct (contains "timestamp not available" ts).
    { split; [discriminate|]. by intros [? _]. }
    destruct (mapM py_int _) as [parts|e] eqn:E; cbn [mbind result_bind].
    + destruct parts as [|h [|m [|s [|x parts]]]]; cbn.
      * split; [|done]. intros _. split; [done|]. intros (l & [= <-] & [?|?]); done.
      * split; [|done]. intros _. split; [done|]. intros (l & [= <-] & [?|?]); done.
      * split; [discriminate|]. intros [_ H]. destruct H. eexists. split; [done|]. by left.
      * split; [discriminate|]. intros [_ H]. destruct H. eexists. split; [done|]. by right.
      * split; [|done]. intros _. split; [done|]. intros (l & [= <-] & [?|?]); done.
    + pose proof E as E'. apply mapM_result_Raise in E' as (x & _ & Hx).
      apply py_int_raises in Hx as ->.
      split; [|done]. intros _. split; [done|]. intros (l & ? & _). congruence.
  - intros tag out docs i d ts Hd Hi Hurl Hts Hne Hraise.
    assert (Hdocs : docs ≠ []) by (intros ->; done).
    assert (Hstamp : dict_get (metadata d) "timestamp"
                       (VStr "timestamp not available") = VStr ts)
      by (unfold dict_get; by rewrite Hts).
    assert (∃ e, gen_responses_of (VStr <$> paragraphs out) docs i = Raise e)
      as [e He].
    { rewrite (gen_responses_of_in_range _ _ _ _ Hd), Hstamp.
      destruct (py_basename _) as [name|e]; cbn [mbind result_bind];
        [|by eexists].
      unfold url_with_offset. rewrite Hurl. cbn [truthy].
      apply String.eqb_neq in Hne. rewrite Hne. cbn [negb andb].
      rewrite Hraise. by eexists. }
    by apply (process_responses_llm_aborts tag out docs i e).
Qed.

Lemma date_parsing_is_lenient_timestamp_parsing_is_not_witness :
  convert_date_format (VStr "not-a-date") = Ok "Invalid date format"
  ∧ convert_date_format (VInt 5) = Ok "Invalid input: not a string"
  ∧ timestamp_to_seconds (VStr "1:00 (timestamp not available)") = Ok None
  ∧ ∃ e, process_responses_llm "depth" "x"
           (Some [doc_of [("timestamp", VStr "abc")]]) = Raise e.
Proof.
  pose proof date_parsing_is_lenient_timestamp_parsing_is_not
    as (_ & Hmarker & Hnot_text & Hsentinel & _ & _ & Haborts).
  split; [|split; [|split]].
  - apply (Hmarker "not-a-date" ValueError); vm_compute; reflexivity.
  - apply Hnot_text. discriminate.
  - apply Hsentinel. reflexivity.
  - apply (Haborts "depth" "x" [doc_of [("timestamp", VStr "abc")]] 0%nat
             (doc_of [("timestamp", VStr "abc")]) "abc").
    + reflexivity.
    + vm_compute. lia.
    + reflexivity.
    + vm_compute. reflexivity.
    + discriminate.
    + vm_compute. reflexivity.
Defined.

(** ** C3 *)

(** C3, as stated, fails: the citation of a document that has only a title
    has five keys, the absent fields being filled with their defaults. *)
Lemma title_only_citation_has_five_keys :
  process_responses_llm "depth" "p" (Some [doc_of [("title", VStr "T")]])
  = Ok {| card_type := "depth";
          responses := [VStr "p"];
          citations := [default_citation (VStr "T")] |}
  ∧ dict_keys (default_citation (VStr "T"))
    = ["Title"; "Published"; "URL"; "Video timestamp"; "Name"].
Proof. split; vm_compute; reflexivity. Qed.

(** C3 (amended): for a document whose metadata holds only a title, not
    [None], the Citation built for the paragraph aligned with it has exactly
    five keys, in this order: Title (the title), Published (the marker
    "Invalid date format"), URL ("url not available"), Video timestamp
    ("timestamp not available") and Name ("source not available"); only
    Page Number is absent.  Such a document never makes the assembler
    raise. *)
Theorem title_only_citation (tag out : string) (docs : list Document) (c : card)
    (i : nat) (d : Document) (title : pyval) :
  process_responses_llm tag out (Some docs) = Ok c →
  docs !! i = Some d →
  metadata d = {[ "title" := title ]} →
  title ≠ VNone →
  (i < length (paragraphs out))%nat →
  citations c !! i = Some (default_citation title)
  ∧ well_formed_metadata d = true.
Proof.
  intros Hc Hd Hmd Ht Hi.
  assert (Hne : docs ≠ []) by (intros ->; done).
  destruct (process_responses_llm_Ok _ _ _ _ Hne Hc) as (_ & _ & _ & Hat).
  destruct (Hat i) as (r & ci & Hg & Hci).
  { apply lookup_lt_Some in Hd. lia. }
  rewrite (gen_responses_of_in_range _ _ _ _ Hd), Hmd in Hg.
  unfold dict_get in Hg.
  rewrite lookup_singleton_eq in Hg.
  rewrite !lookup_singleton_ne in Hg by done.
  cbn [default py_basename mbind result_bind] in Hg.
  change (url_with_offset (VStr "url not available") (VStr "timestamp not available"))
    with (@Ok pyval (VStr "url not available")) in Hg.
  change (date_text (VStr "date not available")) with "Invalid date format" in Hg.
  cbn [mbind result_bind] in Hg. injection Hg as _ <-.
  split.
  - rewrite Hci. f_equal. unfold citation_of, field, default_citation.
    by destruct title.
  - unfold well_formed_metadata, dict_get. rewrite Hmd.
    rewrite !lookup_singleton_ne by done. reflexivity.
Qed.

Lemma title_only_citation_witness :
  ∃ c, process_responses_llm "depth" "p" (Some [doc_of [("title", VStr "T")]]) = Ok c
       ∧ citations c !! 0%nat = Some (default_citation (VStr "T"))
       ∧ well_formed_metadata (doc_of [("title", VStr "T")]) = true.
Proof.
  eexists. split; [vm_compute; reflexivity|].
  apply (title_only_citation "depth" "p" [doc_of [("title", VStr "T")]] _ 0
           (doc_of [("title", VStr "T")]) (VStr "T")).
  - vm_compute. reflexivity.
  - reflexivity.
  - reflexivity.
  - discriminate.
  - vm_compute. lia.
Defined.

(** ** C4 *)

(** C4: the five stores are each searched once, with the query, but the
    top-k of every search is the constant 5, whatever [k] is passed (the
    default of [route_question] is 20). *)
Theorem indepth_searches_use_five (tag : string) (Store Score : Type)
    (search : Store → string → Z → list (Document * Score))
    (sort : list (Document * Score) → list (Document * Score))
    (chain : string → string → string)
    (db_fc db_cj db_pdf db_pc db_news : Store) (query : string) (k : Z) :
  (get_indepth_response_from_query tag Store Score search sort chain
     db_fc db_cj db_pdf db_pc db_news query k).1
  = [Build_search_call db_fc query 5; Build_search_call db_cj query 5;
     Build_search_call db_pdf query 5; Build_search_call db_pc query 5;
     Build_search_call db_news query 5]
  ∧ (route_question tag Store Score search sort chain
       db_fc db_cj db_pdf db_pc db_news query tag 20).1
    = (λ db, Build_search_call db query 5) <$> [db_fc; db_cj; db_pdf; db_pc; db_news].
Proof.
  split; [reflexivity|].
  unfold route_question. rewrite String.eqb_refl. reflexivity.
Qed.

(** ** C5 *)

(** C5, as stated, fails: with three documents and the two paragraphs
    ["a"] and [""], only one Section is emitted; and with a malformed
    timestamp in the first document no card is produced at all. *)
Lemma two_paragraphs_one_section :
  paragraphs trailing_break = ["a"; ""]
  ∧ process_responses_llm "depth" trailing_break
      (Some [doc_of []; doc_of []; doc_of []])
    = Ok {| card_type := "depth";
            responses := [VStr "a"];
            citations := [default_citation (VStr ""); default_citation (VStr "")] |}
  ∧ process_responses_llm "depth" two_paragraphs
      (Some [doc_of [("timestamp", VStr "abc")]; doc_of []; doc_of []])
    = Raise ValueError.
Proof. repeat split; vm_compute; reflexivity. Qed.

(** C5 (amended): no lookup of the assembler is ever out of range, whatever
    the lengths of the lists ([IndexError] is never raised).  For three
    documents and a model output of exactly two paragraphs, a returned card
    has one Section per non-empty paragraph, hence at most 2, and exactly 2
    Citations; a card is returned whenever the metadata of the first two
    documents is well formed. *)
Theorem three_documents_two_paragraphs :
  (∀ tag out docs, process_responses_llm tag out docs ≠ Raise IndexError)
  ∧ (∀ tag out docs,
       length docs = 3%nat → length (paragraphs out) = 2%nat →
       (∀ c, process_responses_llm tag out (Some docs) = Ok c →
             responses c = VStr <$> List.filter nonempty_text (paragraphs out)
             ∧ (length (responses c) ≤ 2)%nat
             ∧ length (citations c) = 2%nat)
       ∧ ((∀ i d, (i < 2)%nat → docs !! i = Some d → well_formed_metadata d = true) →
          ∃ c, process_responses_llm tag out (Some docs) = Ok c)).
Proof.
  split.
  - intros tag out docs H. apply process_responses_llm_raises in H as [?|?]; done.
  - intros tag out docs Hd Hp. split.
    + intros c Hc.
      assert (Hne : docs ≠ []) by (intros ->; done).
      destruct (process_responses_llm_Ok _ _ _ _ Hne Hc) as (_ & Hr & Hl & _).
      split; [done|]. split; [|lia].
      rewrite Hr, length_fmap, <- Hp. apply List.filter_length_le.
    + intros Hwf. apply process_responses_llm_returns.
      intros i d Hi. apply Hwf. lia.
Qed.

Lemma three_documents_two_paragraphs_witness :
  (∀ c, process_responses_llm "depth" trailing_break
          (Some [doc_of []; doc_of []; doc_of []]) = Ok c →
        responses c = VStr <$> List.filter nonempty_text (paragraphs trailing_break)
        ∧ (length (responses c) ≤ 2)%nat
        ∧ length (citations c) = 2%nat)
  ∧ ((∀ i d, (i < 2)%nat → [doc_of []; doc_of []; doc_of []] !! i = Some d →
             well_formed_metadata d = true) →
     ∃ c, process_responses_llm "depth" trailing_break
            (Some [doc_of []; doc_of []; doc_of []]) = Ok c).
Proof.
  apply (proj2 three_documents_two_paragraphs "depth" trailing_break
           [doc_of []; doc_of []; doc_of []]).
  - reflexivity.
  - vm_compute. reflexivity.
Defined.

(** ** C6 *)

(** C6: without documents ([None] or the empty list) the card holds exactly
    one Section and no Citation.  The Section's text is the first paragraph
    of the model output, said without the split: the whole output when it
    has no double line break, otherwise the text before the first double
    line break ([is_first_paragraph]); it is also the head of the split. *)
Theorem no_documents_one_section (tag out : string) (docs : option (list Document)) :
  docs = None ∨ docs = Some [] →
  ∃ first others,
    paragraphs out = first :: others
    ∧ is_first_paragraph out first
    ∧ process_responses_llm tag out docs
      = Ok {| card_type := tag; responses := [VStr first]; citations := [] |}.
Proof.
  intros Hdocs. destruct (split_nonempty double_line_break out) as (p & ps & Hp).
  exists p, ps. split; [exact Hp|].
  split; [exact (split_first_paragraph _ _ _ Hp)|].
  unfold process_responses_llm. rewrite Hp.
  destruct Hdocs as [-> | ->]; reflexivity.
Qed.

Lemma no_documents_one_section_witness :
  is_first_paragraph two_paragraphs "a"
  ∧ process_responses_llm "depth" two_paragraphs None
    = Ok {| card_type := "depth"; responses := [VStr "a"]; citations := [] |}.
Proof.
  destruct (no_documents_one_section "depth" two_paragraphs None)
    as (first & others & Hp & Hfirst & Hcard); [by left|].
  vm_compute in Hp. injection Hp as <- _. by split.
Defined.

(** ** C7 *)

(** C7: [convert_date_format] maps "3-4-2024" to "03/04/2024", returns an
    input that contains a slash unchanged, and maps a string without slash
    that [strptime] cannot parse with the format [%m-%d-%Y] to the marker
    "Invalid date format" (the second format it tries parses nothing); a
    string that is parsed is rendered as MM/DD/YYYY. *)
Theorem convert_date_format_cases :
  convert_date_format (VStr "3-4-2024") = Ok "03/04/2024"
  ∧ convert_date_format (VStr "03/04/2024") = Ok "03/04/2024"
  ∧ convert_date_format (VStr "not-a-date") = Ok "Invalid date format"
  ∧ (∀ s, contains "/" s = true → convert_date_format (VStr s) = Ok s)
  ∧ (∀ s e, contains "/" s = false → strptime s "%m-%d-%Y" = Raise e →
            convert_date_format (VStr s) = Ok "Invalid date format")
  ∧ (∀ s date_obj, contains "/" s = false → strptime s "%m-%d-%Y" = Ok date_obj →
                   convert_date_format (VStr s) = Ok (strftime_mdY date_obj)).
Proof.
  split; [by vm_compute|]. split; [by vm_compute|]. split; [by vm_compute|].
  split; [|split].
  - intros s Hs. by rewrite convert_date_format_str, Hs.
  - intros s e Hs He. by rewrite convert_date_format_str, Hs, He.
  - intros s d Hs Hd. by rewrite convert_date_format_str, Hs, Hd.
Qed.

Lemma convert_date_format_cases_witness :
  convert_date_format (VStr "a/b") = Ok "a/b"
  ∧ convert_date_format (VStr "2-30-2024") = Ok "Invalid date format"
  ∧ convert_date_format (VStr "12-31-1999")
    = Ok (strftime_mdY {| year := 1999; month := 12; day := 31 |}).
Proof.
  destruct convert_date_format_cases as (_ & _ & _ & Hslash & Hbad & Hgood).
  split; [|split].
  - apply Hslash. reflexivity.
  - apply (Hbad "2-30-2024" ValueError); vm_compute; reflexivity.
  - apply Hgood; vm_compute; reflexivity.
Defined.

(** ** C8 *)

(** C8: [timestamp_to_seconds] reads the part of the timestamp before any
    ['-'], and turns H:M:S into h*3600 + m*60 + s and H:M into
    h*3600 + m*60; "1:02:03-1:05:00" gives 3723, and a timestamp that
    contains the sentinel "timestamp not available" gives no offset, so
    that the URL of the citation is the URL of the document, unchanged. *)
Theorem timestamp_to_seconds_offset :
  timestamp_to_seconds (VStr "1:02:03-1:05:00") = Ok (Some 3723)
  ∧ timestamp_to_seconds (VStr "timestamp not available") = Ok None
  ∧ (∀ start rest a b c h m s,
       contains "-" start = false →
       rest = "" ∨ (∃ r, rest = String "-" r) →
       contains "timestamp not available" (start +:+ rest) = false →
       split ":" start = [a; b; c] →
       py_int a = Ok h → py_int b = Ok m → py_int c = Ok s →
       timestamp_to_seconds (VStr (start +:+ rest))
       = Ok (Some (h * 3600 + m * 60 + s)))
  ∧ (∀ start rest a b h m,
       contains "-" start = false →
       rest = "" ∨ (∃ r, rest = String "-" r) →
       contains "timestamp not available" (start +:+ rest) = false →
       split ":" start = [a; b] →
       py_int a = Ok h → py_int b = Ok m →
       timestamp_to_seconds (VStr (start +:+ rest)) = Ok (Some (h * 3600 + m * 60)))
  ∧ (∀ tag out docs c i d u ts,
       process_responses_llm tag out (Some docs) = Ok c →
       docs !! i = Some d →
       (i < length (paragraphs out))%nat →
       metadata d !! "url" = Some (VStr u) →
       dict_get (metadata d) "timestamp" (VStr "timestamp not available") = VStr ts →
       contains "timestamp not available" ts = true →
       ∃ ci, citations c !! i = Some ci ∧ dict_lookup ci "URL" = Some (VStr u)).
Proof.
  split; [by vm_compute|]. split; [by vm_compute|]. split; [|split]; cycle 2.
  { intros tag out docs c i d u ts Hc Hd Hi Hu Hts Hs.
    destruct (citation_of_document _ _ _ _ _ _ Hc Hd Hi)
      as (name & url & _ & Hurl & Hci).
    assert (Hget : dict_get (metadata d) "url" (VStr "url not available") = VStr u)
      by (unfold dict_get; by rewrite Hu).
    rewrite Hget, Hts in Hurl.
    assert (url = VStr u) as ->.
    { unfold url_with_offset in Hurl.
      rewrite timestamp_to_seconds_str, Hs in Hurl.
      destruct (truthy (VStr u) && truthy (VStr ts));
        cbn [mbind result_bind] in Hurl; congruence. }
    eexists. split; [exact Hci|]. apply citation_of_URL. }
  - intros start rest a b c h m s Hno Hrest Hsent Hsplit Ha Hb Hc.
    rewrite timestamp_to_seconds_str, Hsent.
    destruct (split_dash_first start rest Hno Hrest "") as [others Ho].
    unfold split at 2. rewrite Ho, string_app_empty_l. cbn [hd].
    rewrite Hsplit. cbn [mapM]. rewrite Ha, Hb, Hc. reflexivity.
  - intros start rest a b h m Hno Hrest Hsent Hsplit Ha Hb.
    rewrite timestamp_to_seconds_str, Hsent.
    destruct (split_dash_first start rest Hno Hrest "") as [others Ho].
    unfold split at 2. rewrite Ho, string_app_empty_l. cbn [hd].
    rewrite Hsplit. cbn [mapM]. rewrite Ha, Hb. cbn. by rewrite Z.add_0_r.
Qed.

Lemma timestamp_to_seconds_offset_witness :
  timestamp_to_seconds (VStr ("1:02:03" +:+ "-1:05:00"))
  = Ok (Some (1 * 3600 + 2 * 60 + 3))
  ∧ timestamp_to_seconds (VStr ("0:07" +:+ "")) = Ok (Some (0 * 3600 + 7 * 60)).
Proof.
  destruct timestamp_to_seconds_offset as (_ & _ & Hhms & Hhm & _).
  split.
  - apply (Hhms "1:02:03" "-1:05:00" "1" "02" "03"); try reflexivity.
    right. by eexists.
  - apply (Hhm "0:07" "" "0" "07"); try reflexivity. by left.
Defined.

(** ** C9 *)

(** C9: when the URL and the timestamp of a document are both present and
    true values, and the timestamp yields the offset [t], the URL of the
    citation is the document's URL followed by ["?t=<t>s"], or by
    ["&t=<t>s"] when the URL already contains a ['?']. *)
Theorem url_gets_time_parameter :
  (∀ tag out docs c i d u ts t,
     process_responses_llm tag out (Some docs) = Ok c →
     docs !! i = Some d →
     (i < length (paragraphs out))%nat →
     metadata d !! "url" = Some (VStr u) → u ≠ "" →
     metadata d !! "timestamp" = Some (VStr ts) →
     timestamp_to_seconds (VStr ts) = Ok (Some t) →
     ∃ ci, citations c !! i = Some ci
           ∧ dict_lookup ci "URL"
             = Some (VStr (u +:+ (if contains "?" u then "&t=" else "?t=")
                             +:+ pretty t +:+ "s")))
  ∧ process_responses_llm "depth" "x"
      (Some [doc_of [("timestamp", VStr "0:00:42"); ("url", VStr "https://v.example/w")]])
    = Ok {| card_type := "depth"; responses := [VStr "x"];
            citations :=
              [[("Title", VStr ""); ("Published", VStr "Invalid date format");
                ("URL", VStr "https://v.example/w?t=42s");
                ("Video timestamp", VStr "0:00:42");
                ("Name", VStr "source not available")]] |}
  ∧ process_responses_llm "depth" "x"
      (Some [doc_of [("timestamp", VStr "0:00:42");
                     ("url", VStr "https://v.example/w?x=1")]])
    = Ok {| card_type := "depth"; responses := [VStr "x"];
            citations :=
              [[("Title", VStr ""); ("Published", VStr "Invalid date format");
                ("URL", VStr "https://v.example/w?x=1&t=42s");
                ("Video timestamp", VStr "0:00:42");
                ("Name", VStr "source not available")]] |}.
Proof.
  split; [|split; vm_compute; reflexivity].
  intros tag out docs c i d u ts t Hc Hd Hi Hu Hne Hts Ht.
  assert (Hdocs : docs ≠ []) by (intros ->; done).
  destruct (process_responses_llm_Ok _ _ _ _ Hdocs Hc) as (_ & _ & _ & Hat).
  destruct (Hat i) as (r & ci & Hg & Hci).
  { apply lookup_lt_Some in Hd. lia. }
  exists ci. split; [done|].
  rewrite (gen_responses_of_in_range _ _ _ _ Hd) in Hg.
  assert (Hurl : dict_get (metadata d) "url" (VStr "url not available") = VStr u)
    by (unfold dict_get; by rewrite Hu).
  assert (Hstamp : dict_get (metadata d) "timestamp" (VStr "timestamp not available")
                   = VStr ts)
    by (unfold dict_get; by rewrite Hts).
  rewrite Hurl, Hstamp in Hg.
  assert (Htrue : truthy (VStr u) && truthy (VStr ts) = true).
  { apply andb_true_iff. split; cbn [truthy]; apply negb_true_iff, String.eqb_neq.
    - done.
    - intros ->. vm_compute in Ht. discriminate. }
  assert (Hoff : url_with_offset (VStr u) (VStr ts)
                 = Ok (VStr (u +:+ (if contains "?" u then "&t=" else "?t=")
                               +:+ pretty t +:+ "s"))).
  { unfold url_with_offset. rewrite Htrue, Ht.
    cbn [mbind result_bind py_contains]. by destruct (contains "?" u). }
  rewrite Hoff in Hg.
  destruct (py_basename _) as [name|e]; cbn [mbind result_bind] in Hg;
    [|discriminate].
  injection Hg as _ <-. apply citation_of_URL.
Qed.

Lemma url_gets_time_parameter_witness :
  ∃ c ci,
    process_responses_llm "depth" "x"
      (Some [doc_of [("timestamp", VStr "0:00:42");
                     ("url", VStr "https://v.example/w?x=1")]]) = Ok c
    ∧ citations c !! 0%nat = Some ci
    ∧ dict_lookup ci "URL"
      = Some (VStr ("https://v.example/w?x=1"
                    +:+ (if contains "?" "https://v.example/w?x=1"
                         then "&t=" else "?t=")
                    +:+ pretty 42 +:+ "s")).
Proof.
  eexists.
  assert (∀ (P : Prop) (Q : list (string * pyval) → Prop),
            P → (P → ∃ ci, Q ci) → ∃ ci, P ∧ Q ci) as Hsplit.
  { intros P Q HP HQ. destruct (HQ HP) as [ci Hci]. eauto. }
  apply Hsplit; [vm_compute; reflexivity|]. intros Hc.
  apply (proj1 url_gets_time_parameter "depth" "x"
           [doc_of [("timestamp", VStr "0:00:42");
                    ("url", VStr "https://v.example/w?x=1")]]
           _ 0%nat
           (doc_of [("timestamp", VStr "0:00:42");
                    ("url", VStr "https://v.example/w?x=1")])
           "https://v.example/w?x=1" "0:00:42" 42).
  - exact Hc.
  - reflexivity.
  - vm_compute. lia.
  - vm_compute. reflexivity.
  - discriminate.
  - vm_compute. reflexivity.
  - vm_compute. reflexivity.
Defined.

(** ** C10 *)

(** C10: for a non-empty list of documents, the citations of a returned
    card are as many as the smaller of the number of paragraphs and the
    number of documents, each of them has the key "Name", and they are
    never more than the documents; a card is returned whenever the metadata
    is well formed.  The Sections can be fewer than the Citations, because
    empty paragraphs are skipped. *)
Theorem citations_count_and_name :
  (∀ tag out docs,
     docs ≠ [] →
     (∀ c, process_responses_llm tag out (Some docs) = Ok c →
           length (citations c) = (length (paragraphs out) `min` length docs)%nat
           ∧ Forall (λ ci, "Name" ∈ dict_keys ci) (citations c)
           ∧ (length (citations c) ≤ length docs)%nat)
     ∧ (Forall (λ d, well_formed_metadata d = true) docs →
        ∃ c, process_responses_llm tag out (Some docs) = Ok c))
  ∧ (∃ c, process_responses_llm "depth" trailing_break (Some [doc_of []; doc_of []])
          = Ok c
          ∧ length (responses c) = 1%nat ∧ length (citations c) = 2%nat).
Proof.
  split.
  - intros tag out docs Hne. split.
    + intros c Hc.
      destruct (process_responses_llm_Ok _ _ _ _ Hne Hc) as (_ & _ & Hl & Hat).
      split; [done|]. split; [|lia].
      apply Forall_lookup. intros i ci Hci.
      destruct (Hat i) as (r & ci' & Hg & Hci').
      { apply lookup_lt_Some in Hci. lia. }
      assert (ci' = ci) as -> by congruence.
      eapply gen_responses_of_Name; [|exact Hg].
      apply lookup_lt_Some in Hci. lia.
    + intros Hwf. apply process_responses_llm_returns. intros i d _ Hd.
      rewrite Forall_lookup in Hwf. by apply (Hwf i).
  - eexists. split; [vm_compute; reflexivity|]. split; reflexivity.
Qed.

Lemma citations_count_and_name_witness :
  (∀ c, process_responses_llm "depth" trailing_break (Some [doc_of []; doc_of []])
        = Ok c →
        length (citations c)
        = (length (paragraphs trailing_break) `min` length [doc_of []; doc_of []])%nat
        ∧ Forall (λ ci, "Name" ∈ dict_keys ci) (citations c)
        ∧ (length (citations c) ≤ length [doc_of []; doc_of []])%nat)
  ∧ (Forall (λ d, well_formed_metadata d = true) [doc_of []; doc_of []] →
     ∃ c, process_responses_llm "depth" trailing_break (Some [doc_of []; doc_of []])
          = Ok c).
Proof.
  apply (proj1 citations_count_and_name "depth" trailing_break [doc_of []; doc_of []]).
  discriminate.
Defined.

(** * Further properties of the code *)

(** ** Auxiliary facts *)

Lemma bind_Ok {A B} (r : result A) (k : A → result B) (b : B) :
  r ≫= k = Ok b → ∃ a, r = Ok a ∧ k a = Ok b.
Proof. destruct r as [a|e]; cbn; [eauto|discriminate]. Qed.

Lemma process_responses_llm_card_type (tag out : string)
    (docs : option (list Document)) (c : card) :
  process_responses_llm tag out docs = Ok c → card_type c = tag.
Proof.
  unfold process_responses_llm. intros H.
  apply bind_Ok in H as (rc & _ & H). by injection H as <-.
Qed.

(** Every citation of a returned card is the citation of the document at
    its index. *)
Lemma citations_come_from_documents (tag out : string) (docs : list Document)
    (c : card) (i : nat) (ci : list (string * pyval)) :
  process_responses_llm tag out (Some docs) = Ok c →
  docs ≠ [] →
  citations c !! i = Some ci →
  ∃ d name url,
    docs !! i = Some d
    ∧ (i < length (paragraphs out))%nat
    ∧ py_basename (dict_get (metadata d) "source" (VStr "source not available"))
      = Ok name
    ∧ url_with_offset (dict_get (metadata d) "url" (VStr "url not available"))
        (dict_get (metadata d) "timestamp" (VStr "timestamp not available"))
      = Ok url
    ∧ ci = citation_of
             (dict_get (metadata d) "title"
                (dict_get (metadata d) "source" (VStr "")))
             (VStr (date_text
                      (dict_get (metadata d) "publish_date"
                         (VStr "date not available"))))
             url
             (dict_get (metadata d) "timestamp" (VStr "timestamp not available"))
             name
             (dict_get (metadata d) "page_number" VNone).
Proof.
  intros Hc Hne Hci.
  destruct (process_responses_llm_Ok _ _ _ _ Hne Hc) as (_ & _ & Hl & _).
  apply lookup_lt_Some in Hci as Hi. rewrite Hl in Hi.
  destruct (lookup_lt_is_Some_2 docs i) as [d Hd]; [lia|].
  destruct (citation_of_document _ _ _ _ _ _ Hc Hd) as (name & url & Hn & Hu & Hci');
    [lia|].
  exists d, name, url. repeat split; [done|lia|done|done|congruence].
Qed.

Lemma py_basename_Ok (v name : pyval) :
  py_basename v = Ok name → ∃ p, v = VStr p ∧ name = VStr (basename p).
Proof. destruct v as [|p|n]; cbn; [done| |done]. intros [= <-]. eauto. Qed.

Lemma citation_of_lookup (title date url ts name page : pyval) :
  dict_lookup (citation_of title date url ts name page) "Title"
  = (if is_not_None title then Some title else None)
  ∧ dict_lookup (citation_of title date url ts name page) "Published"
    = (if is_not_None date then Some date else None)
  ∧ dict_lookup (citation_of title date url ts name page) "URL"
    = (if is_not_None url then Some url else None)
  ∧ dict_lookup (citation_of title date url ts name page) "Video timestamp"
    = (if is_not_None ts then Some ts else None)
  ∧ dict_lookup (citation_of title date url ts name page) "Name"
    = (if is_not_None name then Some name else None)
  ∧ dict_lookup (citation_of title date url ts name page) "Page Number"
    = (if is_not_None page then Some page else None).
Proof.
  unfold citation_of, field.
  destruct (is_not_None title), (is_not_None date), (is_not_None url),
    (is_not_None ts), (is_not_None name), (is_not_None page);
    repeat split; reflexivity.
Qed.

Lemma citation_of_keys (title date url ts name page : pyval) :
  sublist (dict_keys (citation_of title date url ts name page)) citation_keys.
Proof.
  unfold citation_of, field, dict_keys, citation_keys.
  destruct (is_not_None title), (is_not_None date), (is_not_None url),
    (is_not_None ts), (is_not_None name), (is_not_None page); cbn;
    repeat first [apply sublist_nil | apply sublist_skip | apply sublist_cons].
Qed.

Lemma dict_get_lookup (md : gmap string pyval) (key : string) (dflt v : pyval) :
  md !! key = Some v → dict_get md key dflt = v.
Proof. unfold dict_get. by intros ->. Qed.

Lemma dict_get_missing (md : gmap string pyval) (key : string) (dflt : pyval) :
  md !! key = None → dict_get md key dflt = dflt.
Proof. unfold dict_get. by intros ->. Qed.

Lemma contains_cons (sub : string) (x : ascii) (s : string) :
  contains sub (String x s) = String.prefix sub (String x s) || contains sub s.
Proof. reflexivity. Qed.

Lemma contains_char (c x : ascii) (s : string) :
  contains (String c "") (String x s) = Ascii.eqb c x || contains (String c "") s.
Proof. by rewrite contains_cons, prefix_char. Qed.

Lemma basename_no_slash (p : string) : contains "/" (basename p) = false.
Proof.
  induction p as [|c p IH]; [reflexivity|].
  cbn [basename]. destruct (contains "/" p) eqn:Hp; [exact IH|].
  destruct (Ascii.eqb_spec c "/") as [->|Hne]; [exact Hp|].
  rewrite contains_char, Hp, orb_false_r.
  apply Ascii.eqb_neq. congruence.
Qed.

Lemma timestamp_to_seconds_empty : timestamp_to_seconds (VStr "") = Raise ValueError.
Proof. reflexivity. Qed.

Lemma url_with_offset_Some (u ts : string) (t : Z) :
  u ≠ "" →
  timestamp_to_seconds (VStr ts) = Ok (Some t) →
  url_with_offset (VStr u) (VStr ts)
  = Ok (VStr (u +:+ (if contains "?" u then "&t=" else "?t=") +:+ pretty t +:+ "s")).
Proof.
  intros Hu Ht. unfold url_with_offset.
  assert (truthy (VStr u) && truthy (VStr ts) = true) as ->.
  { apply andb_true_iff. split; cbn [truthy]; apply negb_true_iff, String.eqb_neq.
    - done.
    - intros ->. rewrite timestamp_to_seconds_empty in Ht. discriminate. }
  rewrite Ht. cbn [mbind result_bind py_contains]. by destruct (contains "?" u).
Qed.

Lemma url_with_offset_false (url ts : pyval) :
  truthy url && truthy ts = false → url_with_offset url ts = Ok url.
Proof. unfold url_with_offset. by intros ->. Qed.

(** ** The router *)

(** X1: [route_question] returns a card only when the query type is the
    depth tag; the card then carries that tag and each of the five stores
    has been searched once (the searches are parallel: nothing is said of
    their order).  For any other query type it raises [ValueError] before
    any search is made.  The argument [k] has no effect on the searches or
    on the result. *)
Theorem route_question_dispatch (tag : string) (Store Score : Type)
    (search : Store → string → Z → list (Document * Score))
    (sort : list (Document * Score) → list (Document * Score))
    (chain : string → string → string)
    (db_fc db_cj db_pdf db_pc db_news : Store) (query query_type : string) (k : Z) :
  (query_type ≠ tag →
   route_question tag Store Score search sort chain
     db_fc db_cj db_pdf db_pc db_news query query_type k
   = ([], Raise ValueError))
  ∧ (∀ calls c,
       route_question tag Store Score search sort chain
         db_fc db_cj db_pdf db_pc db_news query query_type k
       = (calls, Ok c) →
       query_type = tag ∧ card_type c = tag
       ∧ call_store <$> calls ≡ₚ [db_fc; db_cj; db_pdf; db_pc; db_news])
  ∧ (∀ k',
       route_question tag Store Score search sort chain
         db_fc db_cj db_pdf db_pc db_news query query_type k'
       = route_question tag Store Score search sort chain
           db_fc db_cj db_pdf db_pc db_news query query_type k).
Proof.
  unfold route_question. destruct (String.eqb_spec query_type tag) as [->|Hne].
  - split; [done|]. split; [|done]. intros calls c H.
    unfold get_indepth_response_from_query in H.
    injection H as <- H. apply process_responses_llm_card_type in H.
    repeat split; done.
  - split; [done|]. split; [|done]. intros calls c [= _ ?].
Qed.

Lemma route_question_dispatch_witness :
  route_question "depth" nat unit (λ _ _ _, []) id (λ _ _, "x")
    1%nat 2%nat 3%nat 4%nat 5%nat "q" "general" 20
  = ([], Raise ValueError)
  ∧ call_store <$> (route_question "depth" nat unit (λ _ _ _, []) id (λ _ _, "x")
                      1%nat 2%nat 3%nat 4%nat 5%nat "q" "depth" 20).1
    ≡ₚ [1; 2; 3; 4; 5]%nat.
Proof.
  split.
  - apply (proj1 (route_question_dispatch "depth" nat unit (λ _ _ _, []) id
                    (λ _ _, "x") 1%nat 2%nat 3%nat 4%nat 5%nat "q" "general" 20)).
    discriminate.
  - destruct (route_question "depth" nat unit (λ _ _ _, []) id (λ _ _, "x")
                1%nat 2%nat 3%nat 4%nat 5%nat "q" "depth" 20) as [calls r] eqn:E.
    assert (Hr : ∃ c, r = Ok c) by (vm_compute in E; injection E as _ <-; by eexists).
    destruct Hr as [c ->].
    apply (proj1 (proj2 (route_question_dispatch "depth" nat unit (λ _ _ _, []) id
                           (λ _ _, "x") 1%nat 2%nat 3%nat 4%nat 5%nat "q" "depth" 20))
             calls c E).
Defined.

(** ** The assembler *)

(** X2: the keys of every citation of a returned card appear in the fixed
    order Title, Published, URL, Video timestamp, Name, Page Number, each at
    most once. *)
Theorem citation_keys_in_fixed_order (tag out : string) (docs : list Document)
    (c : card) :
  docs ≠ [] →
  process_responses_llm tag out (Some docs) = Ok c →
  Forall (λ ci, sublist (dict_keys ci) citation_keys ∧ NoDup (dict_keys ci))
         (citations c).
Proof.
  intros Hne Hc. apply Forall_lookup. intros i ci Hci.
  destruct (citations_come_from_documents _ _ _ _ _ _ Hc Hne Hci)
    as (d & name & url & _ & _ & _ & _ & ->).
  pose proof (citation_of_keys
                (dict_get (metadata d) "title"
                   (dict_get (metadata d) "source" (VStr "")))
                (VStr (date_text
                         (dict_get (metadata d) "publish_date"
                            (VStr "date not available"))))
                url
                (dict_get (metadata d) "timestamp" (VStr "timestamp not available"))
                name
                (dict_get (metadata d) "page_number" VNone)) as Hsub.
  split; [exact Hsub|].
  eapply sublist_NoDup; [|exact Hsub]. compute_done.
Qed.

Lemma citation_keys_in_fixed_order_witness :
  ∃ c, process_responses_llm "depth" "x"
         (Some [doc_of [("title", VStr "T"); ("page_number", VInt 3)]]) = Ok c
       ∧ Forall (λ ci, sublist (dict_keys ci) citation_keys ∧ NoDup (dict_keys ci))
                (citations c).
Proof.
  eexists. split; [vm_compute; reflexivity|].
  apply (citation_keys_in_fixed_order "depth" "x"
           [doc_of [("title", VStr "T"); ("page_number", VInt 3)]]).
  - discriminate.
  - vm_compute. reflexivity.
Defined.

(** X3: with documents, no Section of a returned card has an empty text;
    without documents the single Section is the first paragraph even when
    that is empty, as for a model output that starts with the double line
    break. *)
Theorem sections_have_text_with_documents :
  (∀ tag out docs c,
     docs ≠ [] →
     process_responses_llm tag out (Some docs) = Ok c →
     Forall (λ r, ∃ s, r = VStr s ∧ s ≠ "") (responses c))
  ∧ (∀ tag rest docs,
       docs = None ∨ docs = Some [] →
       process_responses_llm tag (double_line_break +:+ rest) docs
       = Ok {| card_type := tag; responses := [VStr ""]; citations := [] |}).
Proof.
  split.
  - intros tag out docs c Hne Hc.
    destruct (process_responses_llm_Ok _ _ _ _ Hne Hc) as (_ & -> & _).
    apply Forall_fmap, Forall_forall. intros p Hp.
    apply list_elem_of_In, List.filter_In in Hp as [_ Hp].
    exists p. split; [done|]. intros ->. discriminate.
  - intros tag rest docs Hdocs.
    assert (Hs : ∃ others,
               split double_line_break (double_line_break +:+ rest) = "" :: others).
    { unfold split.
      change (double_line_break +:+ rest) with (String LF (String LF rest)).
      cbn [split_go].
      change (String LF (String LF rest)) with (double_line_break +:+ rest).
      rewrite prefix_app. eauto. }
    destruct Hs as [others Hs]. unfold process_responses_llm. rewrite Hs.
    destruct Hdocs as [-> | ->]; reflexivity.
Qed.

Lemma sections_have_text_with_documents_witness :
  (∃ c, process_responses_llm "depth" trailing_break (Some [doc_of []]) = Ok c
        ∧ Forall (λ r, ∃ s, r = VStr s ∧ s ≠ "") (responses c))
  ∧ process_responses_llm "depth" (double_line_break +:+ "b") None
    = Ok {| card_type := "depth"; responses := [VStr ""]; citations := [] |}.
Proof.
  split.
  - eexists. split; [vm_compute; reflexivity|].
    apply (proj1 sections_have_text_with_documents "depth" trailing_break
             [doc_of []]).
    + discriminate.
    + vm_compute. reflexivity.
  - apply (proj2 sections_have_text_with_documents "depth" "b" None). by left.
Defined.

(** X4: the citations depend on the documents and on the number of
    paragraphs only, never on the text of the model output: for two outputs
    on the same documents, the citations of the one with fewer (or as many)
    paragraphs are the first citations of the other. *)
Theorem citations_do_not_depend_on_the_text (tag out1 out2 : string)
    (docs : list Document) (c1 c2 : card) :
  docs ≠ [] →
  process_responses_llm tag out1 (Some docs) = Ok c1 →
  process_responses_llm tag out2 (Some docs) = Ok c2 →
  (length (paragraphs out1) ≤ length (paragraphs out2))%nat →
  citations c1 = take (length (paragraphs out1)) (citations c2).
Proof.
  intros Hne H1 H2 Hle.
  destruct (process_responses_llm_Ok _ _ _ _ Hne H1) as (_ & _ & Hl1 & _).
  destruct (process_responses_llm_Ok _ _ _ _ Hne H2) as (_ & _ & Hl2 & _).
  apply list_eq. intros i.
  destruct (decide (i < length (paragraphs out1) `min` length docs)%nat) as [Hi|Hi].
  - rewrite lookup_take_lt by lia.
    destruct (lookup_lt_is_Some_2 docs i) as [d Hd]; [lia|].
    destruct (citation_of_document _ _ _ _ _ _ H1 Hd)
      as (n1 & u1 & Hn1 & Hu1 & ->); [lia|].
    destruct (citation_of_document _ _ _ _ _ _ H2 Hd)
      as (n2 & u2 & Hn2 & Hu2 & ->); [lia|].
    congruence.
  - rewrite (lookup_ge_None_2 (citations c1)) by lia.
    symmetry. apply lookup_take_None.
    destruct (decide (length (paragraphs out1) ≤ i)%nat); [by right|].
    left. apply lookup_ge_None_2. lia.
Qed.

Lemma citations_do_not_depend_on_the_text_witness :
  ∃ c1 c2,
    process_responses_llm "depth" "x" (Some [doc_of []; doc_of []]) = Ok c1
    ∧ process_responses_llm "depth" two_paragraphs (Some [doc_of []; doc_of []])
      = Ok c2
    ∧ citations c1 = take (length (paragraphs "x")) (citations c2).
Proof.
  eexists _, _. split; [vm_compute; reflexivity|].
  split; [vm_compute; reflexivity|].
  apply (citations_do_not_depend_on_the_text "depth" "x" two_paragraphs
           [doc_of []; doc_of []]).
  - discriminate.
  - vm_compute. reflexivity.
  - vm_compute. reflexivity.
  - vm_compute. lia.
Defined.

(** X5: a document without title takes its Title from the source: the
    whole source path, while Name is only the file name of that path; a
    document with neither has the empty text as Title and the default
    "source not available" as Name. *)
Theorem title_falls_back_to_source (tag out : string) (docs : list Document)
    (c : card) (i : nat) (d : Document) :
  process_responses_llm tag out (Some docs) = Ok c →
  docs !! i = Some d →
  (i < length (paragraphs out))%nat →
  metadata d !! "title" = None →
  ∃ ci, citations c !! i = Some ci
        ∧ (∀ p, metadata d !! "source" = Some (VStr p) →
                dict_lookup ci "Title" = Some (VStr p)
                ∧ dict_lookup ci "Name" = Some (VStr (basename p)))
        ∧ (metadata d !! "source" = None →
           dict_lookup ci "Title" = Some (VStr "")
           ∧ dict_lookup ci "Name" = Some (VStr "source not available")).
Proof.
  intros Hc Hd Hi Ht.
  destruct (citation_of_document _ _ _ _ _ _ Hc Hd Hi)
    as (name & url & Hn & _ & Hci).
  eexists. split; [exact Hci|].
  rewrite (dict_get_missing _ "title" _ Ht).
  match goal with
  | |- context [citation_of ?t ?dt ?u ?ts ?n ?pg] =>
      destruct (citation_of_lookup t dt u ts n pg) as (HT & _ & _ & _ & HN & _)
  end.
  rewrite HT, HN. split.
  - intros p Hs. rewrite (dict_get_lookup _ "source" (VStr "") _ Hs).
    rewrite (dict_get_lookup _ "source" (VStr "source not available") _ Hs) in Hn.
    cbn in Hn. injection Hn as <-. done.
  - intros Hs. rewrite (dict_get_missing _ "source" (VStr "") Hs).
    rewrite (dict_get_missing _ "source" (VStr "source not available") Hs) in Hn.
    cbn in Hn. injection Hn as <-. done.
Qed.

Lemma title_falls_back_to_source_witness :
  ∃ c,
    process_responses_llm "depth" "x"
      (Some [doc_of [("source", VStr "minutes/2023/a.pdf")]]) = Ok c
    ∧ ∃ ci, citations c !! 0%nat = Some ci
            ∧ dict_lookup ci "Title" = Some (VStr "minutes/2023/a.pdf")
            ∧ dict_lookup ci "Name" = Some (VStr (basename "minutes/2023/a.pdf")).
Proof.
  eexists. split; [vm_compute; reflexivity|].
  match goal with
  | |- ∃ ci, citations ?c !! _ = _ ∧ _ =>
      destruct (title_falls_back_to_source "depth" "x"
                  [doc_of [("source", VStr "minutes/2023/a.pdf")]] c 0%nat
                  (doc_of [("source", VStr "minutes/2023/a.pdf")]))
        as (ci & Hci & Hsrc & _)
  end.
  - vm_compute. reflexivity.
  - reflexivity.
  - vm_compute. lia.
  - vm_compute. reflexivity.
  - exists ci. split; [exact Hci|]. apply Hsrc. vm_compute. reflexivity.
Defined.

(** X6: the Name of every citation of a returned card is a text without
    ['/']: the file name of the source, never a path. *)
Theorem names_are_file_names (tag out : string) (docs : list Document) (c : card) :
  docs ≠ [] →
  process_responses_llm tag out (Some docs) = Ok c →
  Forall (λ ci, ∃ name, dict_lookup ci "Name" = Some (VStr name)
                        ∧ contains "/" name = false)
         (citations c).
Proof.
  intros Hne Hc. apply Forall_lookup. intros i ci Hci.
  destruct (citations_come_from_documents _ _ _ _ _ _ Hc Hne Hci)
    as (d & name & url & _ & _ & Hn & _ & ->).
  apply py_basename_Ok in Hn as (p & _ & ->).
  exists (basename p). split; [apply citation_of_Name|apply basename_no_slash].
Qed.

Lemma names_are_file_names_witness :
  ∃ c, process_responses_llm "depth" "x"
         (Some [doc_of [("source", VStr "minutes/2023/a.pdf")]]) = Ok c
       ∧ Forall (λ ci, ∃ name, dict_lookup ci "Name" = Some (VStr name)
                               ∧ contains "/" name = false)
                (citations c).
Proof.
  eexists. split; [vm_compute; reflexivity|].
  apply (names_are_file_names "depth" "x"
           [doc_of [("source", VStr "minutes/2023/a.pdf")]]).
  - discriminate.
  - vm_compute. reflexivity.
Defined.

(** X7: a document without URL whose timestamp yields an offset [t] gets
    the offset appended to the default text: its URL entry is
    "url not available?t=<t>s". *)
Theorem missing_url_still_gets_the_offset (tag out : string) (docs : list Document)
    (c : card) (i : nat) (d : Document) (ts : string) (t : Z) :
  process_responses_llm tag out (Some docs) = Ok c →
  docs !! i = Some d →
  (i < length (paragraphs out))%nat →
  metadata d !! "url" = None →
  metadata d !! "timestamp" = Some (VStr ts) →
  timestamp_to_seconds (VStr ts) = Ok (Some t) →
  ∃ ci, citations c !! i = Some ci
        ∧ dict_lookup ci "URL"
          = Some (VStr ("url not available?t=" +:+ pretty t +:+ "s")).
Proof.
  intros Hc Hd Hi Hu Hts Ht.
  destruct (citation_of_document _ _ _ _ _ _ Hc Hd Hi)
    as (name & url & _ & Hurl & Hci).
  rewrite (dict_get_missing _ "url" _ Hu), (dict_get_lookup _ "timestamp" _ _ Hts)
    in Hurl.
  rewrite (url_with_offset_Some _ _ t) in Hurl by done.
  injection Hurl as <-. eexists. split; [exact Hci|]. apply citation_of_URL.
Qed.

Lemma missing_url_still_gets_the_offset_witness :
  ∃ c,
    process_responses_llm "depth" "x" (Some [doc_of [("timestamp", VStr "0:01:05")]])
    = Ok c
    ∧ ∃ ci, citations c !! 0%nat = Some ci
            ∧ dict_lookup ci "URL"
              = Some (VStr ("url not available?t=" +:+ pretty 65 +:+ "s")).
Proof.
  eexists. split; [vm_compute; reflexivity|].
  match goal with
  | |- ∃ ci, citations ?c !! _ = _ ∧ _ =>
      apply (missing_url_still_gets_the_offset "depth" "x"
               [doc_of [("timestamp", VStr "0:01:05")]] c 0%nat
               (doc_of [("timestamp", VStr "0:01:05")]) "0:01:05" 65)
  end.
  - vm_compute. reflexivity.
  - reflexivity.
  - vm_compute. lia.
  - vm_compute. reflexivity.
  - vm_compute. reflexivity.
  - vm_compute. reflexivity.
Defined.

(** X8: when the URL or the timestamp of a document is a false value
    ([None], the empty text or 0), the timestamp is not parsed: the URL
    entry of the citation is the stored URL (absent for [None]), and
    documents of that kind with a text as source never abort the assembly,
    however malformed their timestamps are. *)
Theorem false_url_or_timestamp_is_left_alone :
  (∀ tag out docs c i d,
     process_responses_llm tag out (Some docs) = Ok c →
     docs !! i = Some d →
     (i < length (paragraphs out))%nat →
     truthy (dict_get (metadata d) "url" (VStr "url not available"))
     && truthy (dict_get (metadata d) "timestamp" (VStr "timestamp not available"))
     = false →
     ∃ ci, citations c !! i = Some ci
           ∧ dict_lookup ci "URL"
             = (let url := dict_get (metadata d) "url" (VStr "url not available") in
                if is_not_None url then Some url else None))
  ∧ (∀ tag out docs,
       Forall (λ d,
                 (∃ p, dict_get (metadata d) "source" (VStr "source not available")
                       = VStr p)
                 ∧ truthy (dict_get (metadata d) "url" (VStr "url not available"))
                   && truthy (dict_get (metadata d) "timestamp"
                                (VStr "timestamp not available"))
                   = false)
              docs →
       ∃ c, process_responses_llm tag out (Some docs) = Ok c).
Proof.
  split.
  - intros tag out docs c i d Hc Hd Hi Hf.
    destruct (citation_of_document _ _ _ _ _ _ Hc Hd Hi)
      as (name & url & _ & Hurl & Hci).
    rewrite url_with_offset_false in Hurl by done. injection Hurl as <-.
    eexists. split; [exact Hci|].
    match goal with
    | |- context [citation_of ?t ?dt ?u ?ts ?n ?pg] =>
        destruct (citation_of_lookup t dt u ts n pg) as (_ & _ & HU & _)
    end.
    exact HU.
  - intros tag out docs Hall. apply process_responses_llm_returns.
    intros i d _ Hd. rewrite Forall_lookup in Hall.
    destruct (Hall i d Hd) as [[p Hp] Hf].
    unfold well_formed_metadata. cbn zeta. by rewrite Hp, Hf.
Qed.

Lemma false_url_or_timestamp_is_left_alone_witness :
  ∃ c, process_responses_llm "depth" "x"
         (Some [doc_of [("url", VStr ""); ("timestamp", VStr "abc")]]) = Ok c.
Proof.
  apply (proj2 false_url_or_timestamp_is_left_alone "depth" "x"
           [doc_of [("url", VStr ""); ("timestamp", VStr "abc")]]).
  apply Forall_cons. split; [|apply Forall_nil_2].
  split; [by eexists|]. vm_compute. reflexivity.
Defined.

(** X9: the page number and the timestamp of a document are copied into
    its citation as they are stored, whenever they are not [None] (a page
    number 0 and a timestamp range are kept as they are); a page number that
    is missing or [None] leaves no Page Number key. *)
Theorem page_number_and_timestamp_are_copied (tag out : string)
    (docs : list Document) (c : card) (i : nat) (d : Document) :
  process_responses_llm tag out (Some docs) = Ok c →
  docs !! i = Some d →
  (i < length (paragraphs out))%nat →
  ∃ ci, citations c !! i = Some ci
        ∧ dict_lookup ci "Page Number"
          = (let page := dict_get (metadata d) "page_number" VNone in
             if is_not_None page then Some page else None)
        ∧ dict_lookup ci "Video timestamp"
          = (let ts := dict_get (metadata d) "timestamp"
                         (VStr "timestamp not available") in
             if is_not_None ts then Some ts else None).
Proof.
  intros Hc Hd Hi.
  destruct (citation_of_document _ _ _ _ _ _ Hc Hd Hi)
    as (name & url & _ & _ & Hci).
  eexists. split; [exact Hci|].
  match goal with
  | |- context [citation_of ?t ?dt ?u ?ts ?n ?pg] =>
      destruct (citation_of_lookup t dt u ts n pg) as (_ & _ & _ & HV & _ & HP)
  end.
  by split.
Qed.

Lemma page_number_and_timestamp_are_copied_witness :
  ∃ c,
    process_responses_llm "depth" "x"
      (Some [doc_of [("page_number", VInt 0); ("timestamp", VStr "0:01:05-0:02:00")]])
    = Ok c
    ∧ ∃ ci, citations c !! 0%nat = Some ci
            ∧ dict_lookup ci "Page Number" = Some (VInt 0)
            ∧ dict_lookup ci "Video timestamp" = Some (VStr "0:01:05-0:02:00").
Proof.
  eexists. split; [vm_compute; reflexivity|].
  match goal with
  | |- ∃ ci, citations ?c !! _ = _ ∧ _ =>
      apply (page_number_and_timestamp_are_copied "depth" "x"
               [doc_of [("page_number", VInt 0);
                        ("timestamp", VStr "0:01:05-0:02:00")]] c 0%nat
               (doc_of [("page_number", VInt 0);
                        ("timestamp", VStr "0:01:05-0:02:00")]))
  end.
  - vm_compute. reflexivity.
  - reflexivity.
  - vm_compute. lia.
Defined.

(** X10: every citation has a Published entry, and it is the text that
    [convert_date_format] returns for the stored publish date; for a
    document without publish date it is the marker "Invalid date format". *)
Theorem published_is_always_present (tag out : string) (docs : list Document)
    (c : card) (i : nat) (d : Document) :
  process_responses_llm tag out (Some docs) = Ok c →
  docs !! i = Some d →
  (i < length (paragraphs out))%nat →
  ∃ ci text,
    citations c !! i = Some ci
    ∧ convert_date_format
        (dict_get (metadata d) "publish_date" (VStr "date not available"))
      = Ok text
    ∧ dict_lookup ci "Published" = Some (VStr text)
    ∧ (metadata d !! "publish_date" = None → text = "Invalid date format").
Proof.
  intros Hc Hd Hi.
  destruct (citation_of_document _ _ _ _ _ _ Hc Hd Hi)
    as (name & url & _ & _ & Hci).
  eexists _, _. split; [exact Hci|].
  split; [apply convert_date_format_Ok|]. split.
  - match goal with
    | |- context [citation_of ?t ?dt ?u ?ts ?n ?pg] =>
        destruct (citation_of_lookup t dt u ts n pg) as (_ & HP & _)
    end.
    exact HP.
  - intros Hm. by rewrite (dict_get_missing _ "publish_date" _ Hm).
Qed.

Lemma published_is_always_present_witness :
  ∃ c,
    process_responses_llm "depth" "x" (Some [doc_of [("publish_date", VStr "3-4-2024")]])
    = Ok c
    ∧ ∃ ci text,
        citations c !! 0%nat = Some ci
        ∧ convert_date_format
            (dict_get (metadata (doc_of [("publish_date", VStr "3-4-2024")]))
               "publish_date" (VStr "date not available"))
          = Ok text
        ∧ dict_lookup ci "Published" = Some (VStr text)
        ∧ (metadata (doc_of [("publish_date", VStr "3-4-2024")]) !! "publish_date"
           = None → text = "Invalid date format").
Proof.
  eexists. split; [vm_compute; reflexivity|].
  match goal with
  | |- ∃ ci text, citations ?c !! _ = _ ∧ _ =>
      apply (published_is_always_present "depth" "x"
               [doc_of [("publish_date", VStr "3-4-2024")]] c 0%nat
               (doc_of [("publish_date", VStr "3-4-2024")]))
  end.
  - vm_compute. reflexivity.
  - reflexivity.
  - vm_compute. lia.
Defined.

(** ** Auxiliary facts on splitting and on [int] *)

Lemma mapM_result_Forall2 {A B} (f : A → result B) (l : list A) (k : list B) :
  mapM f l = Ok k → Forall2 (λ x y, f x = Ok y) l k.
Proof.
  revert k. induction l as [|x l IH]; intros k; cbn.
  - intros [= <-]. constructor.
  - intros H. apply bind_Ok in H as (y & Hy & H).
    apply bind_Ok in H as (k' & Hk' & H). injection H as <-.
    constructor; [done|]. by apply IH.
Qed.

Lemma has_char_app (c : ascii) (a b : string) :
  has_char c (a +:+ b) = has_char c a || has_char c b.
Proof.
  induction a as [|x a IH]; [done|].
  rewrite string_app_cons. cbn [has_char]. by rewrite IH, orb_assoc.
Qed.

Lemma contains_has_char (c : ascii) (s : string) :
  contains (String c "") s = has_char c s.
Proof.
  induction s as [|x s IH]; [reflexivity|].
  by rewrite contains_char, IH.
Qed.

(** The first piece of a split on one character does not hold it. *)
Lemma split_char_head (sep : ascii) (s : string) :
  ∀ cur x l,
    has_char sep cur = false →
    split_go (String sep "") 0 cur s = x :: l →
    has_char sep x = false.
Proof.
  induction s as [|c s IH]; intros cur x l Hcur; cbn [split_go].
  - by intros [= <- _].
  - rewrite prefix_char. destruct (Ascii.eqb sep c) eqn:Hc.
    + by intros [= <- _].
    + apply IH. by rewrite has_char_app, Hcur; cbn; rewrite Hc.
Qed.

(** The characters of the pieces of a split are characters of the text. *)
Lemma split_go_chars (sep : string) (c : ascii) (s : string) :
  ∀ skip cur p,
    p ∈ split_go sep skip cur s →
    has_char c p = true →
    has_char c cur = true ∨ has_char c s = true.
Proof.
  induction s as [|x s IH]; intros skip cur p; cbn [split_go].
  - intros ->%list_elem_of_singleton. by left.
  - destruct skip as [|k].
    + destruct (String.prefix sep (String x s)).
      * intros [->|Hp]%elem_of_cons Hc; [by left|].
        destruct (IH _ _ _ Hp Hc) as [H|H]; [done|].
        right. cbn. by rewrite H, orb_true_r.
      * intros Hp Hc. destruct (IH _ _ _ Hp Hc) as [H|H].
        -- rewrite has_char_app in H. apply orb_true_iff in H as [H|H]; [by left|].
           right. cbn in *. by rewrite orb_false_r in H; rewrite H.
        -- right. cbn. by rewrite H, orb_true_r.
    + intros Hp Hc. destruct (IH _ _ _ Hp Hc) as [H|H]; [by left|].
      right. cbn. by rewrite H, orb_true_r.
Qed.

(** Without the separating character there is one piece, the text. *)
Lemma split_char_absent (sep : ascii) (s : string) :
  ∀ cur, has_char sep s = false →
         split_go (String sep "") 0 cur s = [cur +:+ s].
Proof.
  induction s as [|c s IH]; intros cur Hs; cbn [split_go].
  - by rewrite string_app_empty_r.
  - cbn in Hs. apply orb_false_iff in Hs as [Hc Hs].
    rewrite prefix_char, Hc, IH by done.
    by rewrite string_app_assoc.
Qed.

Lemma has_char_drop_spaces (c : ascii) (s : string) :
  has_char c (drop_spaces s) = true → has_char c s = true.
Proof.
  induction s as [|x s IH]; [done|]. cbn [drop_spaces].
  destruct (is_space x); [|done].
  intros H. cbn. by rewrite IH, orb_true_r.
Qed.

Lemma digit_value_range (c : ascii) (d : Z) : digit_value c = Some d → 0 ≤ d.
Proof. unfold digit_value. case_match; [|done]. intros [= <-]. lia. Qed.

Lemma int_digits_nonneg (s : string) :
  ∀ acc b n, 0 ≤ acc → int_digits acc b s = Some n → 0 ≤ n.
Proof.
  induction s as [|c s IH]; intros acc b n Hacc; cbn [int_digits].
  - destruct b; [done|]. by intros [= <-].
  - destruct (digit_value c) as [d|] eqn:Hd.
    + apply digit_value_range in Hd. apply IH. lia.
    + destruct b; [done|]. destruct (Ascii.eqb c "_"); [by apply IH|].
      destruct (all_spaces _); [|done]. by intros [= <-].
Qed.

(** A negative [int] needs a minus sign. *)
Lemma py_int_nonneg (s : string) (n : Z) :
  has_char "-" s = false → py_int s = Ok n → 0 ≤ n.
Proof.
  intros Hs. unfold py_int.
  destruct (drop_spaces s) as [|c r] eqn:Hd; [discriminate|].
  destruct (Ascii.eqb_spec c "-") as [->|Hminus].
  { assert (has_char "-" s = true); [|congruence].
    apply has_char_drop_spaces. by rewrite Hd. }
  destruct c as [[] [] [] [] [] [] [] []]; try congruence;
    repeat case_match; try discriminate; intros [= <-];
    match goal with
    | H : int_digits 0 false _ = Some ?m |- _ =>
        apply int_digits_nonneg in H; lia
    end.
Qed.

Lemma contains_prefix (sub s : string) :
  String.prefix sub s = true → contains sub s = true.
Proof. destruct s; cbn [contains]; by intros ->. Qed.

Lemma contains_app (sub a b : string) : contains sub (a +:+ sub +:+ b) = true.
Proof.
  induction a as [|x a IH].
  - rewrite string_app_empty_l. apply contains_prefix, prefix_app.
  - rewrite string_app_cons, contains_cons, IH. apply orb_true_r.
Qed.

(** The start of a timestamp, as [timestamp_to_seconds] takes it, has no
    ['-'], and neither has any of its parts. *)
Lemma start_time_parts_no_minus (ts p : string) :
  p ∈ split ":" (hd "" (split "-" ts)) → has_char "-" p = false.
Proof.
  intros Hp. destruct (split_nonempty "-" ts) as (start & others & Hs).
  rewrite Hs in Hp. cbn [hd] in Hp.
  assert (Hstart : has_char "-" start = false)
    by (eapply (split_char_head "-" ts ""); [done|exact Hs]).
  destruct (has_char "-" p) eqn:Hc; [|done].
  destruct (split_go_chars ":" "-" _ _ _ _ Hp Hc) as [H|H]; [done|congruence].
Qed.

(** ** The parsers *)

(** X11: an offset computed by [timestamp_to_seconds] is never negative:
    a minus sign ends the part of the timestamp that is read. *)
Theorem timestamp_offset_is_not_negative (ts : string) (t : Z) :
  timestamp_to_seconds (VStr ts) = Ok (Some t) → 0 ≤ t.
Proof.
  rewrite timestamp_to_seconds_str.
  destruct (contains "timestamp not available" ts); [done|].
  intros H. apply bind_Ok in H as (parts & Hparts & H).
  apply mapM_result_Forall2 in Hparts.
  assert (Hpos : Forall (λ n, 0 ≤ n) parts).
  { apply Forall_forall. intros n Hn.
    apply list_elem_of_lookup in Hn as [j Hj].
    destruct (Forall2_lookup_r _ _ _ _ _ Hparts Hj) as (p & Hp & Hint).
    apply (py_int_nonneg p); [|done].
    apply (start_time_parts_no_minus ts). by eapply list_elem_of_lookup_2. }
  destruct parts as [|h [|m [|s [|x parts]]]]; try discriminate.
  - injection H as <-. apply Forall_cons in Hpos as [? [? _]%Forall_cons]. lia.
  - injection H as <-.
    apply Forall_cons in Hpos as [? [? [? _]%Forall_cons]%Forall_cons]. lia.
Qed.

Lemma timestamp_offset_is_not_negative_witness :
  timestamp_to_seconds (VStr "1:02:03-1:05:00") = Ok (Some 3723) ∧ 0 ≤ 3723.
Proof.
  assert (H : timestamp_to_seconds (VStr "1:02:03-1:05:00") = Ok (Some 3723))
    by (vm_compute; reflexivity).
  split; [exact H|].
  exact (timestamp_offset_is_not_negative "1:02:03-1:05:00" 3723 H).
Defined.

(** X12: a timestamp without [':'] that does not contain the sentinel,
    such as a plain number of seconds or the empty text, makes
    [timestamp_to_seconds] raise [ValueError]. *)
Theorem timestamp_without_colon_is_rejected (ts : string) :
  contains ":" ts = false →
  contains "timestamp not available" ts = false →
  timestamp_to_seconds (VStr ts) = Raise ValueError.
Proof.
  intros Hcolon Hsent. rewrite timestamp_to_seconds_str, Hsent.
  destruct (split_nonempty "-" ts) as (start & others & Hs). rewrite Hs. cbn [hd].
  assert (Hstart : has_char ":" start = false).
  { destruct (has_char ":" start) eqn:Hc; [|done].
    assert (Hin : start ∈ split_go "-" 0 "" ts) by (unfold split in Hs; rewrite Hs; left).
    destruct (split_go_chars "-" ":" _ _ _ _ Hin Hc) as [H|H]; [done|].
    rewrite <- contains_has_char in H. congruence. }
  unfold split. rewrite (split_char_absent ":" start "" Hstart), string_app_empty_l.
  cbn [mapM]. destruct (py_int start) as [n|e] eqn:Hint; cbn; [done|].
  by apply py_int_raises in Hint as ->.
Qed.

Lemma timestamp_without_colon_is_rejected_witness :
  timestamp_to_seconds (VStr "75") = Raise ValueError.
Proof. apply timestamp_without_colon_is_rejected; reflexivity. Defined.

(** X13: on texts [convert_date_format] is idempotent: converting what it
    returned changes nothing (a converted date has slashes, and the marker
    is mapped to itself).  The text returned for an input that is not a
    text is not a fixed point: converting it gives the marker. *)
Theorem convert_date_format_is_idempotent_on_texts :
  (∀ s text, convert_date_format (VStr s) = Ok text →
             convert_date_format (VStr text) = Ok text)
  ∧ (∀ v, (∀ s, v ≠ VStr s) →
          ∃ text, convert_date_format v = Ok text
                  ∧ convert_date_format (VStr text) = Ok "Invalid date format").
Proof.
  split.
  - intros s text. rewrite convert_date_format_str.
    destruct (contains "/" s) eqn:Hs.
    + intros [= <-]. by rewrite convert_date_format_str, Hs.
    + destruct (strptime s "%m-%d-%Y") as [d|e]; intros [= <-].
      * rewrite convert_date_format_str. unfold strftime_mdY at 1.
        by rewrite contains_app.
      * by vm_compute.
  - intros v Hv. destruct v as [|s|n]; [|by destruct (Hv s)|];
      (eexists; split; [reflexivity|by vm_compute]).
Qed.

Lemma convert_date_format_is_idempotent_on_texts_witness :
  convert_date_format (VStr "03/04/2024") = Ok "03/04/2024".
Proof.
  apply (proj1 convert_date_format_is_idempotent_on_texts "3-4-2024").
  vm_compute. reflexivity.
Defined.

(** ** Auxiliary facts on joining and splitting *)

Lemma foldl_snoc {A B} (f : A → B) (l : list A) (acc : list B) :
  foldl (λ acc x, acc ++ [f x]) acc l = acc ++ (f <$> l).
Proof.
  revert acc. induction l as [|x l IH]; intros acc; cbn.
  - by rewrite app_nil_r.
  - by rewrite IH, <- app_assoc.
Qed.

Lemma string_length_app (a b : string) :
  String.length (a +:+ b) = (String.length a + String.length b)%nat.
Proof.
  induction a as [|x a IH]; [done|].
  rewrite string_app_cons. cbn. by rewrite IH.
Qed.

(** Passing over the rest of a separator. *)
Lemma split_go_skip (sep a : string) :
  ∀ cur s, split_go sep (String.length a) cur (a +:+ s) = split_go sep 0 cur s.
Proof.
  induction a as [|x a IH]; intros cur s; [done|].
  rewrite string_app_cons. cbn [String.length split_go]. apply IH.
Qed.

Lemma join_cons (sep x : string) (l : list string) :
  l ≠ [] → join sep (x :: l) = x +:+ sep +:+ join sep l.
Proof. by destruct l. Qed.

Lemma join_split_go (a : ascii) (sep' : string) (n : nat) :
  ∀ s cur,
    (String.length s ≤ n)%nat →
    join (String a sep') (split_go (String a sep') 0 cur s) = cur +:+ s.
Proof.
  induction n as [|n IH]; intros s cur Hn.
  - destruct s; [|cbn in Hn; lia]. cbn. by rewrite string_app_empty_r.
  - destruct s as [|c s]; [cbn; by rewrite string_app_empty_r|].
    cbn [split_go].
    destruct (String.prefix (String a sep') (String c s)) eqn:Hp.
    + apply prefix_inv in Hp as [t Ht]. rewrite string_app_cons in Ht.
      injection Ht as -> ->.
      replace (String.length (String a sep') - 1)%nat with (String.length sep')
        by (cbn; lia).
      rewrite split_go_skip.
      rewrite join_cons by apply split_go_nonempty.
      rewrite IH, string_app_empty_l.
      * by rewrite string_app_cons.
      * cbn in Hn. rewrite string_length_app in Hn. lia.
    + rewrite IH by (cbn in Hn; lia).
      by rewrite string_app_assoc, string_app_cons, string_app_empty_l.
Qed.

Lemma prefix_break_other (c : ascii) (s : string) :
  c ≠ LF → String.prefix double_line_break (String c s) = false.
Proof.
  intros Hc. unfold double_line_break. rewrite prefix_cons.
  by destruct (ascii_dec LF c).
Qed.

Lemma split_go_line (s : string) :
  ∀ cur, has_char LF s = false →
         split_go double_line_break 0 cur s = [cur +:+ s].
Proof.
  induction s as [|c s IH]; intros cur Hs; cbn [split_go].
  - by rewrite string_app_empty_r.
  - cbn [has_char] in Hs. apply orb_false_iff in Hs as [Hc Hs].
    rewrite prefix_break_other by (apply Ascii.eqb_neq in Hc; congruence).
    rewrite IH by done. by rewrite string_app_assoc.
Qed.

Lemma split_go_line_break (s t : string) :
  ∀ cur, has_char LF s = false →
         split_go double_line_break 0 cur (s +:+ double_line_break +:+ t)
         = (cur +:+ s) :: split_go double_line_break 0 "" t.
Proof.
  induction s as [|c s IH]; intros cur Hs.
  - rewrite string_app_empty_l, string_app_empty_r.
    change (double_line_break +:+ t) with (String LF (String LF t)).
    cbn [split_go].
    change (String LF (String LF t)) with (double_line_break +:+ t).
    by rewrite prefix_app.
  - cbn [has_char] in Hs. apply orb_false_iff in Hs as [Hc Hs].
    rewrite string_app_cons. cbn [split_go].
    rewrite prefix_break_other by (apply Ascii.eqb_neq in Hc; congruence).
    rewrite IH by done. by rewrite string_app_assoc.
Qed.

Lemma split_join_lines (l : list string) :
  l ≠ [] →
  Forall (λ p, has_char LF p = false) l →
  split double_line_break (join double_line_break l) = l.
Proof.
  induction l as [|x l IH]; [done|]. intros _ Hall.
  apply Forall_cons in Hall as [Hx Hl].
  destruct l as [|y l].
  - cbn [join]. unfold split. by rewrite split_go_line, string_app_empty_l.
  - rewrite join_cons by done. unfold split.
    rewrite split_go_line_break, string_app_empty_l by done.
    f_equal. by apply IH.
Qed.

(** ** The combiner *)

Lemma process_and_concat_documents_eq (Score : Type)
    (sort : list (Document * Score) → list (Document * Score))
    (retrieved_docs : list (string * list (Document * Score))) :
  process_and_concat_documents Score sort retrieved_docs
  = (join double_line_break
       (page_content <$> concat ((λ sd, (sort sd.2).*1) <$> retrieved_docs)),
     concat ((λ sd, (sort sd.2).*1) <$> retrieved_docs)).
Proof.
  unfold process_and_concat_documents.
  assert (Hinner : ∀ (l : list (Document * Score)) (acc : list string * list Document),
            foldl (λ (acc : list string * list Document) (ds : Document * Score),
                     (acc.1 ++ [page_content ds.1], acc.2 ++ [ds.1])) acc l
            = (acc.1 ++ (page_content <$> l.*1), acc.2 ++ l.*1)).
  { induction l as [|ds l IH]; intros acc; cbn.
    - rewrite !app_nil_r. by destruct acc.
    - rewrite IH. cbn. by rewrite <- !app_assoc. }
  assert (Houter : ∀ (rd : list (string * list (Document * Score)))
                     (acc : list string * list Document),
            foldl (λ (acc : list string * list Document)
                     (sd : string * list (Document * Score)),
                     foldl (λ (acc : list string * list Document)
                              (ds : Document * Score),
                              (acc.1 ++ [page_content ds.1], acc.2 ++ [ds.1]))
                           acc (sort sd.2)) acc rd
            = (acc.1 ++ (page_content <$> concat ((λ sd, (sort sd.2).*1) <$> rd)),
               acc.2 ++ concat ((λ sd, (sort sd.2).*1) <$> rd))).
  { induction rd as [|sd rd IH]; intros acc; cbn.
    - rewrite !app_nil_r. by destruct acc.
    - rewrite Hinner, IH. cbn. by rewrite fmap_app, <- !app_assoc. }
  by rewrite Houter.
Qed.

(** X14: the combiner keeps text and documents aligned: the documents it
    returns are those of every source, each source sorted by
    [sort_retrieved_documents], in the order of the sources, and the text is
    the contents of exactly these documents, in that order, joined by the
    double line break. *)
Theorem combined_text_follows_the_documents (Score : Type)
    (sort : list (Document * Score) → list (Document * Score))
    (retrieved_docs : list (string * list (Document * Score))) :
  (process_and_concat_documents Score sort retrieved_docs).2
  = concat ((λ sd, (sort sd.2).*1) <$> retrieved_docs)
  ∧ (process_and_concat_documents Score sort retrieved_docs).1
    = join double_line_break
        (page_content <$> (process_and_concat_documents Score sort retrieved_docs).2).
Proof. by rewrite process_and_concat_documents_eq. Qed.

(** X15: when no document's content has a line break and there is at least
    one document, the combined text splits back into the contents of the
    documents: it has one paragraph per document, in the order of the
    documents. *)
Theorem combined_text_splits_back (Score : Type)
    (sort : list (Document * Score) → list (Document * Score))
    (retrieved_docs : list (string * list (Document * Score))) :
  (process_and_concat_documents Score sort retrieved_docs).2 ≠ [] →
  Forall (λ doc, contains (String LF "") (page_content doc) = false)
         (process_and_concat_documents Score sort retrieved_docs).2 →
  paragraphs (process_and_concat_documents Score sort retrieved_docs).1
  = page_content <$> (process_and_concat_documents Score sort retrieved_docs).2.
Proof.
  rewrite process_and_concat_documents_eq. cbn [fst snd].
  intros Hne Hall. unfold paragraphs. apply split_join_lines.
  - intros Hnil. apply fmap_nil_inv in Hnil. done.
  - apply Forall_fmap. eapply Forall_impl; [exact Hall|].
    intros doc Hdoc. cbn. by rewrite <- contains_has_char.
Qed.

Lemma combined_text_splits_back_witness :
  paragraphs
    (process_and_concat_documents unit id
       [("fc", [({| page_content := "one"; metadata := ∅ |}, ())]);
        ("cj", [({| page_content := "two"; metadata := ∅ |}, ())])]).1
  = page_content <$>
      (process_and_concat_documents unit id
         [("fc", [({| page_content := "one"; metadata := ∅ |}, ())]);
          ("cj", [({| page_content := "two"; metadata := ∅ |}, ())])]).2.
Proof.
  apply combined_text_splits_back.
  - discriminate.
  - repeat (apply Forall_cons; split; [reflexivity|]). apply Forall_nil_2.
Defined.

(** X16: splitting loses no text: the paragraphs of any model output,
    joined again by the double line break, are the output. *)
Theorem paragraphs_join_back (out : string) :
  join double_line_break (paragraphs out) = out.
Proof.
  unfold paragraphs, split, double_line_break.
  by rewrite (join_split_go LF (String LF "") (String.length out)),
    string_app_empty_l.
Qed.

(** ** The in-depth pipeline without documents *)

(** X17: when the five searches return nothing (and sorting nothing gives
    nothing), the in-depth pipeline asks the model with an empty text of
    documents and returns a card with one Section and no Citation.  The
    Section's text is the first paragraph of the model's answer: the whole
    answer when it has no double line break, otherwise the text before the
    first double line break ([is_first_paragraph]). *)
Theorem empty_retrieval_gives_one_section (tag : string) (Store Score : Type)
    (search : Store → string → Z → list (Document * Score))
    (sort : list (Document * Score) → list (Document * Score))
    (chain : string → string → string)
    (db_fc db_cj db_pdf db_pc db_news : Store) (query : string) (k : Z) :
  (∀ db, db ∈ [db_fc; db_cj; db_pdf; db_pc; db_news] → search db query 5 = []) →
  sort [] = [] →
  ∃ first others,
    paragraphs (chain query "") = first :: others
    ∧ is_first_paragraph (chain query "") first
    ∧ (get_indepth_response_from_query tag Store Score search sort chain
         db_fc db_cj db_pdf db_pc db_news query k).2
      = Ok {| card_type := tag; responses := [VStr first]; citations := [] |}.
Proof.
  intros Hsearch Hsort.
  destruct (split_nonempty double_line_break (chain query "")) as (p & ps & Hp).
  exists p, ps. split; [exact Hp|].
  split; [exact (split_first_paragraph _ _ _ Hp)|].
  unfold get_indepth_response_from_query. cbn [snd].
  rewrite process_and_concat_documents_eq. cbn.
  rewrite !Hsearch by set_solver. rewrite !Hsort. cbn.
  unfold process_responses_llm. rewrite Hp. reflexivity.
Qed.

Lemma empty_retrieval_gives_one_section_witness :
  is_first_paragraph two_paragraphs "a"
  ∧ (get_indepth_response_from_query "depth" unit unit (λ _ _ _, []) id
       (λ _ _, two_paragraphs) () () () () () "q" 20).2
    = Ok {| card_type := "depth"; responses := [VStr "a"]; citations := [] |}.
Proof.
  destruct (empty_retrieval_gives_one_section "depth" unit unit (λ _ _ _, []) id
              (λ _ _, two_paragraphs) () () () () () "q" 20)
    as (first & others & Hp & Hfirst & Hcard); [reflexivity|reflexivity|].
  vm_compute in Hp. injection Hp as <- _. by split.
Defined.

(** ** [append_metadata_to_content] *)

Lemma append_metadata_to_content_eq (Score : Type)
    (doc_list : list (Document * Score)) :
  append_metadata_to_content Score doc_list
  = (λ doc_tuple : Document * Score,
       {| content :=
            if is_not_None (dict_get (metadata doc_tuple.1) "publish_date" VNone)
            then "Document: " +:+ page_content doc_tuple.1 +:+ " (Published on: "
                 +:+ py_str (dict_get (metadata doc_tuple.1) "publish_date" VNone)
                 +:+ ")"
            else page_content doc_tuple.1;
          info_metadata := metadata doc_tuple.1;
          score := doc_tuple.2 |}) <$> doc_list.
Proof. unfold append_metadata_to_content. by rewrite foldl_snoc. Qed.

(** X18: [append_metadata_to_content] returns one entry per document, in
    order, with the metadata and the score of the document unchanged.  The
    content of the entry always contains the content of the document: it is
    that content itself when the publish date is missing or [None], and
    "Document: <content> (Published on: <date>)" when the date is a text. *)
Theorem append_metadata_keeps_the_documents (Score : Type)
    (doc_list : list (Document * Score)) :
  Forall2
    (λ (doc_tuple : Document * Score) (u : updated_doc_info Score),
       info_metadata u = metadata doc_tuple.1
       ∧ score u = doc_tuple.2
       ∧ contains (page_content doc_tuple.1) (content u) = true
       ∧ (dict_get (metadata doc_tuple.1) "publish_date" VNone = VNone →
          content u = page_content doc_tuple.1)
       ∧ (∀ date, metadata doc_tuple.1 !! "publish_date" = Some (VStr date) →
                  content u = "Document: " +:+ page_content doc_tuple.1
                              +:+ " (Published on: " +:+ date +:+ ")"))
    doc_list (append_metadata_to_content Score doc_list).
Proof.
  rewrite append_metadata_to_content_eq. apply Forall2_fmap_r, Forall_Forall2_diag.
  apply Forall_forall. intros [doc sc] _.
  cbn -[dict_get contains String.append py_str is_not_None].
  split; [done|]. split; [done|]. split; [|split].
  - destruct (is_not_None _); [apply contains_app|].
    apply contains_prefix. pose proof (prefix_app (page_content doc) "") as Hp.
    by rewrite string_app_empty_r in Hp.
  - by intros ->.
  - intros date Hd. by rewrite (dict_get_lookup _ _ _ _ Hd).
Qed.

(** ** The records of the evaluation file *)

Lemma lstrip_length (s : string) : (String.length (lstrip s) ≤ String.length s)%nat.
Proof.
  induction s as [|c s IH]; [done|]. cbn [lstrip].
  destruct (isspace c); cbn; lia.
Qed.

Lemma lstrip_app (q x : string) :
  lstrip q = q → q ≠ "" → lstrip (q +:+ x) = q +:+ x.
Proof.
  destruct q as [|c q]; [done|]. intros Hq _.
  rewrite string_app_cons. cbn [lstrip] in *.
  destruct (isspace c); [|done].
  pose proof (lstrip_length q) as Hl. rewrite Hq in Hl. cbn in Hl. lia.
Qed.

Lemma rstrip_snoc (s : string) (c : ascii) :
  isspace c = true → rstrip (s +:+ String c "") = rstrip s.
Proof.
  intros Hc. induction s as [|x s IH].
  - rewrite string_app_empty_l. cbn [rstrip]. by rewrite Hc.
  - rewrite string_app_cons. cbn [rstrip]. by rewrite IH.
Qed.

Lemma rstrip_app (a b : string) :
  rstrip b ≠ "" → rstrip (a +:+ b) = a +:+ rstrip b.
Proof.
  intros Hb. induction a as [|x a IH]; [done|].
  rewrite !string_app_cons. cbn [rstrip]. rewrite IH.
  destruct (String.eqb_spec (a +:+ rstrip b) "") as [He|He]; [|done].
  destruct a; [by rewrite string_app_empty_l in He|done].
Qed.

Lemma split_char_first (sep : ascii) (s t : string) :
  ∀ cur, has_char sep s = false →
         split_go (String sep "") 0 cur (s +:+ String sep t)
         = (cur +:+ s) :: split_go (String sep "") 0 "" t.
Proof.
  induction s as [|c s IH]; intros cur Hs.
  - rewrite string_app_empty_l, string_app_empty_r. cbn [split_go].
    by rewrite prefix_char, Ascii.eqb_refl.
  - cbn [has_char] in Hs. apply orb_false_iff in Hs as [Hc Hs].
    rewrite string_app_cons. cbn [split_go].
    rewrite prefix_char, Hc, IH by done. by rewrite string_app_assoc.
Qed.

Lemma isspace_TAB : isspace TAB = true.
Proof. reflexivity. Qed.

Lemma isspace_LF : isspace LF = true.
Proof. reflexivity. Qed.

(** X19: a row "query<TAB>expected" ended by a line break is read as the
    query and the expected output, and a row with the query alone as the
    query and the empty text, provided the query is not empty and has no
    white space at its ends, the expected output has none at its end, and
    neither holds a tab. *)
Theorem read_record_reads_both_forms (q e : string) :
  q ≠ "" → lstrip q = q → rstrip q = q → rstrip e = e →
  contains (String TAB "") q = false →
  contains (String TAB "") e = false →
  read_record (q +:+ String TAB e +:+ String LF "") = Ok (q, e)
  ∧ read_record (q +:+ String LF "") = Ok (q, "").
Proof.
  intros Hne Hl Hr He Hq Hte. rewrite contains_has_char in Hq, Hte.
  assert (Hone : split (String TAB "") q = [q])
    by (unfold split; by rewrite split_char_absent, string_app_empty_l).
  assert (Hsingle : ∀ row, strip row = q → read_record row = Ok (q, "")).
  { intros row Hrow. unfold read_record. by rewrite Hrow, Hone. }
  split.
  - destruct e as [|x e'] eqn:Hee.
    + apply Hsingle. unfold strip. rewrite lstrip_app by done.
      change (q +:+ String TAB "" +:+ String LF "")
        with (q +:+ (String TAB "" +:+ String LF "")).
      rewrite <- string_app_assoc.
      by rewrite !rstrip_snoc.
    + rewrite <- Hee in *.
      assert (Hrow : strip (q +:+ String TAB e +:+ String LF "") = q +:+ String TAB e).
      { unfold strip. rewrite lstrip_app by done.
        change (q +:+ String TAB e +:+ String LF "")
          with (q +:+ String TAB (e +:+ String LF "")).
        assert (Hend : rstrip (String TAB (e +:+ String LF "")) = String TAB e).
        { cbn [rstrip]. rewrite rstrip_snoc, He by done.
          destruct (String.eqb_spec e "") as [->|_]; [done|reflexivity]. }
        rewrite rstrip_app by (rewrite Hend; done). by rewrite Hend. }
      unfold read_record. rewrite Hrow. unfold split.
      rewrite split_char_first, string_app_empty_l by done.
      by rewrite split_char_absent, string_app_empty_l.
  - apply Hsingle. unfold strip. rewrite lstrip_app by done.
    by rewrite rstrip_snoc.
Qed.

Lemma read_record_reads_both_forms_witness :
  read_record ("who voted" +:+ String TAB "the council" +:+ String LF "")
  = Ok ("who voted", "the council")
  ∧ read_record ("who voted" +:+ String LF "") = Ok ("who voted", "").
Proof.
  apply read_record_reads_both_forms; try reflexivity. discriminate.
Defined.

Lemma strip_spaces (s : string) :
  (∀ c, has_char c s = true → isspace c = true) → strip s = "".
Proof.
  unfold strip. induction s as [|x s IH]; intros Hs; [done|].
  cbn [lstrip]. rewrite (Hs x) by (cbn; by rewrite Ascii.eqb_refl).
  apply IH. intros c Hc. apply Hs. cbn. by rewrite Hc, orb_true_r.
Qed.

(** X20: a row made of white space only, such as an empty line, is not
    skipped: it is read as the empty query with the empty expected output.
    A row is refused, with [ValueError] and never [IndexError], exactly when
    it has more than two tab-separated fields once stripped. *)
Theorem read_record_blank_and_long_rows :
  (∀ row, (∀ c, has_char c row = true → isspace c = true) →
          read_record row = Ok ("", ""))
  ∧ (∀ row e, read_record row = Raise e →
              e = ValueError
              ∧ (2 < length (split (String TAB "") (strip row)))%nat)
  ∧ (∀ row, (2 < length (split (String TAB "") (strip row)))%nat →
            read_record row = Raise ValueError).
Proof.
  split; [|split].
  - intros row Hrow. unfold read_record. by rewrite strip_spaces.
  - intros row e. unfold read_record.
    destruct (split_nonempty (String TAB "") (strip row)) as (x & l & ->).
    destruct l as [|y [|z l]]; cbn; try discriminate.
    intros [= <-]. split; [done|lia].
  - intros row. unfold read_record.
    destruct (split (String TAB "") (strip row)) as [|x [|y [|z l]]]; cbn;
      intros; (lia || done).
Qed.

Lemma read_record_blank_and_long_rows_witness :
  read_record (String LF "") = Ok ("", "")
  ∧ read_record ("a" +:+ String TAB "b" +:+ String TAB "c") = Raise ValueError.
Proof.
  split.
  - apply (proj1 read_record_blank_and_long_rows).
    intros c. cbn [has_char]. rewrite orb_false_r.
    intros ->%Ascii.eqb_eq. reflexivity.
  - apply (proj2 (proj2 read_record_blank_and_long_rows)). vm_compute. lia.
Defined.

(** ** What the assembler does not look at *)

Lemma for_each_ext {S} (b1 b2 : S → nat → result S) (idx : list nat) :
  ∀ st, (∀ i st', i ∈ idx → b1 st' i = b2 st' i) →
        for_each b1 idx st = for_each b2 idx st.
Proof.
  induction idx as [|i idx IH]; intros st Hb; [done|].
  cbn [for_each]. rewrite (Hb i st) by left.
  destruct (b2 st i) as [st'|e]; [|done]. cbn [mbind result_bind].
  apply IH. intros j st'' Hj. apply Hb. by right.
Qed.

Lemma collect_agrees (grs t1 p1 s1 d1 ts1 u1 t2 p2 s2 d2 ts2 u2 : list pyval)
    (i : nat) (st : list pyval * list (list (string * pyval))) :
  t1 !! i = t2 !! i → p1 !! i = p2 !! i → s1 !! i = s2 !! i →
  d1 !! i = d2 !! i → ts1 !! i = ts2 !! i → u1 !! i = u2 !! i →
  collect grs t1 p1 s1 d1 ts1 u1 st i = collect grs t2 p2 s2 d2 ts2 u2 st i.
Proof.
  intros Ht Hp Hs Hd Hts Hu. rewrite !collect_eq, !gen_responses_eq.
  by rewrite Ht, Hp, Hs, Hd, Hts, Hu.
Qed.

(** X21: the documents beyond the last paragraph are never looked at: the
    assembler returns the same card, or raises the same exception, as on
    the first documents only, as many as there are paragraphs. *)
Theorem documents_beyond_the_paragraphs_are_ignored (tag out : string)
    (docs : list Document) :
  process_responses_llm tag out (Some docs)
  = process_responses_llm tag out (Some (take (length (paragraphs out)) docs)).
Proof.
  destruct docs as [|doc docs']; [by rewrite take_nil|].
  destruct (split_nonempty double_line_break out) as (p & ps & Hp).
  unfold paragraphs at 1. rewrite Hp. cbn [length take].
  rewrite !process_responses_llm_docs. f_equal.
  apply for_each_ext. intros i st Hi.
  apply elem_of_seq in Hi as [_ Hi]. cbn in Hi.
  unfold paragraphs in Hi. rewrite length_fmap, Hp in Hi. cbn [length] in Hi.
  change (doc :: take (length ps) docs') with (take (S (length ps)) (doc :: docs')).
  apply collect_agrees;
    unfold titles_of, page_numbers_of, sources_of, publish_date_texts,
      timestamps_of, urls_of;
    rewrite !list_lookup_fmap, lookup_take_lt by lia; reflexivity.
Qed.

Lemma fmap_Forall2_eq {A B} (f : A → B) (l1 l2 : list A) :
  Forall2 (λ x y, f x = f y) l1 l2 → f <$> l1 = f <$> l2.
Proof. induction 1 as [|x y l1 l2 Hxy _ IH]; cbn; [done|]. by rewrite Hxy, IH. Qed.

(** X22: the card depends on the metadata of the documents under the six
    keys title, source, page_number, publish_date, timestamp and url only:
    documents that agree there give the same result, whatever their contents
    and their other metadata. *)
Theorem only_six_metadata_keys_matter (tag out : string)
    (docs1 docs2 : list Document) :
  Forall2 (λ d1 d2, ∀ key, key ∈ metadata_keys →
                           metadata d1 !! key = metadata d2 !! key)
          docs1 docs2 →
  process_responses_llm tag out (Some docs1)
  = process_responses_llm tag out (Some docs2).
Proof.
  intros Hall.
  assert (Hget : ∀ key, key ∈ metadata_keys → ∀ dflt,
            Forall2 (λ d1 d2, dict_get (metadata d1) key dflt
                              = dict_get (metadata d2) key dflt) docs1 docs2).
  { intros key Hkey dflt. eapply Forall2_impl; [exact Hall|].
    intros d1 d2 H. unfold dict_get. by rewrite (H key Hkey). }
  assert (Ht : titles_of docs1 = titles_of docs2).
  { apply (fmap_Forall2_eq
             (λ doc, dict_get (metadata doc) "title"
                       (dict_get (metadata doc) "source" (VStr "")))).
    eapply Forall2_impl; [exact Hall|]. intros d1 d2 H. unfold dict_get.
    by rewrite (H "title"), (H "source") by (unfold metadata_keys; set_solver). }
  assert (Hp : page_numbers_of docs1 = page_numbers_of docs2).
  { apply (fmap_Forall2_eq (λ doc, dict_get (metadata doc) "page_number" VNone)).
    apply Hget. unfold metadata_keys. set_solver. }
  assert (Hs : sources_of docs1 = sources_of docs2).
  { apply (fmap_Forall2_eq
             (λ doc, dict_get (metadata doc) "source" (VStr "source not available"))).
    apply Hget. unfold metadata_keys. set_solver. }
  assert (Hd : publish_date_texts docs1 = publish_date_texts docs2).
  { apply (fmap_Forall2_eq
             (λ doc, VStr (date_text (dict_get (metadata doc) "publish_date"
                                        (VStr "date not available"))))).
    eapply Forall2_impl; [apply (Hget "publish_date")|].
    - unfold metadata_keys. set_solver.
    - intros d1 d2 H. cbn. by rewrite H. }
  assert (Hts : timestamps_of docs1 = timestamps_of docs2).
  { apply (fmap_Forall2_eq
             (λ doc, dict_get (metadata doc) "timestamp"
                       (VStr "timestamp not available"))).
    apply Hget. unfold metadata_keys. set_solver. }
  assert (Hu : urls_of docs1 = urls_of docs2).
  { apply (fmap_Forall2_eq
             (λ doc, dict_get (metadata doc) "url" (VStr "url not available"))).
    apply Hget. unfold metadata_keys. set_solver. }
  destruct Hall as [|d1 d2 l1 l2 _ _]; [done|].
  rewrite !process_responses_llm_docs. by rewrite Ht, Hp, Hs, Hd, Hts, Hu.
Qed.

Lemma only_six_metadata_keys_matter_witness :
  process_responses_llm "depth" "x"
    (Some [{| page_content := "one";
              metadata := {[ "title" := VStr "T" ]} |}])
  = process_responses_llm "depth" "x"
      (Some [{| page_content := "two";
                metadata := {[ "title" := VStr "T"; "author" := VStr "A" ]} |}]).
Proof.
  apply only_six_metadata_keys_matter.
  constructor; [|constructor].
  intros key Hkey. cbn [metadata].
  unfold metadata_keys in Hkey.
  repeat (apply elem_of_cons in Hkey as [->|Hkey]; [vm_compute; reflexivity|]).
  by apply elem_of_nil in Hkey.
Defined.
